(** * Cursor hooks for the mem0 memory service

    A shallow embedding of the two hook scripts
    [.cursor/hooks/memory_retrieve.py] and [.cursor/hooks/memory_save.py],
    and the properties of their specification that can be stated on it.

    Python values that come out of [json.load] are modelled by the type
    [json]; a Python exception that leaves a function is the [Raise] case of
    [result].  Strings are Rocq strings, one character per code point (the
    8-bit range). *)

From Stdlib Require Import String Ascii ZArith QArith Lia.
From stdpp Require Import base option list strings gmap.

Local Open Scope Z_scope.
Local Open Scope stdpp_scope.
Local Set Warnings "-register-all".

(** ** Python values *)

(** What [json.load] produces.  A number, [int] or [float], is kept by its
    value.  A [dict] is kept as the list of its items in insertion order,
    keys pairwise distinct; [JObj] lookups take the first binding of a
    key. *)
Inductive json : Type :=
| JNull
| JBool (b : bool)
| JNum (q : Q)
| JStr (s : string)
| JArr (items : list json)
| JObj (fields : list (string * json)).

(** The exceptions that can leave the functions below. *)
Inductive exn : Type :=
| AttributeError   (* [.get] on a value that is not a dict *)
| TypeError        (* subscripting, iterating or joining the wrong type *)
| ValueError       (* [int()], [float()], a NUL handed to [os.putenv] *)
| OSError.         (* a file that cannot be read, [os.putenv] on an empty name *)

Inductive result (A : Type) : Type :=
| Ok (a : A)
| Raise (e : exn).
Arguments Ok {A} a.
Arguments Raise {A} e.

#[export] Instance result_ret : MRet result := @Ok.
#[export] Instance result_bind : MBind result := λ A B f r,
  match r with
  | Ok a => f a
  | Raise e => Raise e
  end.

#[export] Instance result_fmap : FMap result := λ A B f r,
  match r with
  | Ok a => Ok (f a)
  | Raise e => Raise e
  end.

(** Python truth value testing. *)
Definition truthy (v : json) : bool :=
  match v with
  | JNull => false
  | JBool b => b
  | JNum q => negb (Qnum q =? 0)
  | JStr s => negb (String.eqb s "")
  | JArr items => match items with [] => false | _ => true end
  | JObj fields => match fields with [] => false | _ => true end
  end.

(** [a or b] *)
Definition py_or (a b : json) : json := if truthy a then a else b.

Fixpoint dict_lookup (d : list (string * json)) (k : string) : option json :=
  match d with
  | [] => None
  | (k', v) :: d' => if String.eqb k' k then Some v else dict_lookup d' k
  end.

(** [d.get(k, default)] on a dict. *)
Definition dict_get (d : list (string * json)) (k : string) (dflt : json) : json :=
  default dflt (dict_lookup d k).

(** [v.get(k, default)]: only a dict has the method. *)
Definition py_get (v : json) (k : string) (dflt : json) : result json :=
  match v with
  | JObj d => Ok (dict_get d k dflt)
  | _ => Raise AttributeError
  end.

(** ** Strings *)

Definition NL : string := String (ascii_of_nat 10) "".

(** [s[:n]] *)
Fixpoint str_take (n : nat) (s : string) : string :=
  match n, s with
  | S n', String c s' => String c (str_take n' s')
  | _, _ => ""
  end.

(** [sep.join(parts)] on a list of strings. *)
Fixpoint str_join (sep : string) (parts : list string) : string :=
  match parts with
  | [] => ""
  | [p] => p
  | p :: rest => p +:+ sep +:+ str_join sep rest
  end.

Definition chars (s : string) : list ascii := String.list_ascii_of_string s.

(** The items a [for] loop, or [str.join], draws from a value: the elements
    of a list, the characters of a string, the keys of a dict; anything else
    is not iterable. *)
Definition py_iter (v : json) : result (list json) :=
  match v with
  | JArr items => Ok items
  | JStr s => Ok ((λ c, JStr (String c "")) <$> chars s)
  | JObj fields => Ok ((λ kv, JStr kv.1) <$> fields)
  | _ => Raise TypeError
  end.

Definition as_str (v : json) : result string :=
  match v with
  | JStr s => Ok s
  | _ => Raise TypeError
  end.

Fixpoint all_str (items : list json) : result (list string) :=
  match items with
  | [] => Ok []
  | v :: rest => s ← as_str v; parts ← all_str rest; Ok (s :: parts)
  end.

(** [sep.join(v)]: every item must be a [str]. *)
Definition py_join (sep : string) (v : json) : result string :=
  items ← py_iter v;
  parts ← all_str items;
  Ok (str_join sep parts).

(** [l[-m:]]: a negative start counts from the end and is clamped at the
    front; [-0] is [0], and a positive start ([m < 0]) is clamped at the
    end. *)
Definition slice_tail {A} (l : list A) (m : Z) : list A :=
  let len := Z.of_nat (length l) in
  let start := if - m <? 0 then Z.max 0 (- m + len) else Z.min (- m) len in
  drop (Z.to_nat start) l.

(** [str.isspace] on the code points below 256. *)
Definition is_space (c : ascii) : bool :=
  let n := nat_of_ascii c in
  ((9 <=? n) && (n <=? 13) || (28 <=? n) && (n <=? 32) || (n =? 133) || (n =? 160))%nat.

Fixpoint lstrip (s : string) : string :=
  match s with
  | String c s' => if is_space c then lstrip s' else s
  | EmptyString => ""
  end.

Fixpoint rstrip (s : string) : string :=
  match s with
  | String c s' =>
      let r := rstrip s' in
      if is_space c && String.eqb r "" then "" else String c r
  | EmptyString => ""
  end.

(** [s.strip()] *)
Definition strip (s : string) : string := rstrip (lstrip s).

(** [s.startswith("#")] *)
Definition starts_with_hash (s : string) : bool :=
  match s with
  | String c _ => Ascii.eqb c "#"
  | EmptyString => false
  end.

(** [s.split("=", 1)] when ["=" in s]: the text before the first ["="] and
    the text after it; [None] when there is no ["="]. *)
Fixpoint split_eq (s : string) : option (string * string) :=
  match s with
  | String c s' =>
      if Ascii.eqb c "="
      then Some ("", s')
      else (λ kv : string * string, (String c kv.1, kv.2)) <$> split_eq s'
  | EmptyString => None
  end.

(** [str.lower] on the code points below 256: the letters A-Z, and the
    Latin-1 capitals 192-222 other than the multiplication sign 215. *)
Definition lower_char (c : ascii) : ascii :=
  let n := nat_of_ascii c in
  if ((65 <=? n) && (n <=? 90) || (192 <=? n) && (n <=? 222) && negb (n =? 215))%nat
  then ascii_of_nat (n + 32)
  else c.

Fixpoint lower (s : string) : string :=
  match s with
  | String c s' => String (lower_char c) (lower s')
  | EmptyString => ""
  end.

Fixpoint has_nul (s : string) : bool :=
  match s with
  | String c s' => Ascii.eqb c (ascii_of_nat 0) || has_nul s'
  | EmptyString => false
  end.

(** ** What the interpreter and its libraries provide *)

(** The decoder behind [json.load] and [json.loads], the builtins [int] and
    [float] on a string, and the text an f-string gives a value that is not
    a [str].  [None] stands for the exception the call raises
    ([json.JSONDecodeError], [ValueError]); input the decoder cannot even
    read as text is left out. *)
Class Runtime : Type := {
  pyfloat : Type;
  json_loads : string → option json;
  py_int : string → option Z;
  py_float : string → option pyfloat;
  py_repr : json → string;
}.

(** [int(s)] and [float(s)] *)
Definition int_of_str `{Runtime} (s : string) : result Z :=
  match py_int s with
  | Some n => Ok n
  | None => Raise ValueError
  end.

Definition float_of_str `{Runtime} (s : string) : result pyfloat :=
  match py_float s with
  | Some x => Ok x
  | None => Raise ValueError
  end.

(** [f"{v}"] *)
Definition format_value `{Runtime} (v : json) : string :=
  match v with
  | JStr s => s
  | _ => py_repr v
  end.

(** ** The process environment and the [.env] file

    [load_env_file] is the same function in both scripts. *)

Abbreviation environ := (gmap string string).

(** [os.environ.get(k, default)] *)
Definition environ_get (env : environ) (k dflt : string) : string :=
  default dflt (env !! k).

(** [os.putenv] refuses a NUL in the name or the value and an empty name (a
    name holding ["="] too, which [split_eq] never produces). *)
Definition putenv_ok (k v : string) : bool :=
  negb (String.eqb k "") && negb (has_nul k) && negb (has_nul v).

(** [os.environ.setdefault(k, v)]: a variable that is set is left alone.
    Setting one raises [ValueError] on a NUL in the name or the value,
    which is looked for first, and [OSError] on an empty name. *)
Definition setdefault (env : environ) (k v : string) : result environ :=
  match env !! k with
  | Some _ => Ok env
  | None =>
      if putenv_ok k v then Ok (<[k := v]> env)
      else Raise (if has_nul k || has_nul v then ValueError else OSError)
  end.

(** The body of [for line in f]: one line of a [.env] file. *)
Definition load_line (env : environ) (line : string) : result environ :=
  let line := strip line in
  if negb (String.eqb line "") && negb (starts_with_hash line)
  then match split_eq line with
       | Some (key, value) => setdefault env (strip key) (strip value)
       | None => Ok env
       end
  else Ok env.

(** The environment after the loop over the lines, and the exception that
    ended it early, if one did. *)
Fixpoint load_lines (lines : list string) (env : environ) : environ * option exn :=
  match lines with
  | [] => (env, None)
  | line :: rest =>
      match load_line env line with
      | Ok env' => load_lines rest env'
      | Raise e => (env, Some e)
      end
  end.

(** A [.env] file: absent ([env_path.exists()] is false), or present with
    the lines that iterating over it yields; when [readable] is false the
    read fails with [OSError] after these lines (a file that cannot even be
    opened has none). *)
Inductive env_file : Type :=
| Absent
| Present (lines : list string) (readable : bool).

(** The [.env] file under a directory, and the one under [Path.cwd()]. *)
Record filesystem : Type := {
  root_env : string → env_file;
  cwd_env : env_file;
}.

(** [with open(env_path) as f: for line in f: ...], for a file that exists. *)
Definition read_env (lines : list string) (readable : bool) (env : environ)
    : environ * option exn :=
  let '(env', e) := load_lines lines env in
  (env', match e with
         | Some _ => e
         | None => if readable then None else Some OSError
         end).

(** Lines 28-37: the loop over the workspace roots.  The first root whose
    [.env] exists is read and ends the loop; a root that is not a string
    makes [Path(root)] raise.  The second component is the exception that
    left the loop, if one did (the enclosing [try] swallows it). *)
Fixpoint load_roots (fs : filesystem) (roots : list json) (env : environ)
    : environ * option exn :=
  match roots with
  | [] => (env, None)
  | JStr root :: rest =>
      match root_env fs root with
      | Present lines readable => read_env lines readable env
      | Absent => load_roots fs rest env
      end
  | _ :: _ => (env, Some TypeError)
  end.

Section env_loading.
Context `{Runtime}.

(** Lines 25-39: the declared workspace roots, read from the
    [CURSOR_HOOK_INPUT] variable; every exception is swallowed. *)
Definition load_workspace_env (fs : filesystem) (env : environ) : environ :=
  match json_loads (environ_get env "CURSOR_HOOK_INPUT" "{}") with
  | None => env
  | Some input_data =>
      match py_get input_data "workspace_roots" (JArr []) ≫= py_iter with
      | Ok roots => (load_roots fs roots env).1
      | Raise _ => env
      end
  end.

(** The environment [load_env_file] leaves behind, and the exception it
    raises, if any: only the read of the [.env] in the current directory
    is outside the [try]. *)
Definition load_env_file (fs : filesystem) (env : environ) : environ * option exn :=
  let env := load_workspace_env fs env in
  match cwd_env fs with
  | Present lines readable => read_env lines readable env
  | Absent => (env, None)
  end.
End env_loading.

(** *** The loading order as the specification words it *)

(** The variable a line of a [.env] file defines, if it defines one. *)
Definition line_definition (line : string) : option (string * string) :=
  let line := strip line in
  if negb (String.eqb line "") && negb (starts_with_hash line)
  then (λ kv : string * string, (strip kv.1, strip kv.2)) <$> split_eq line
  else None.

(** "first definition wins": the value of the earliest line defining [k]. *)
Fixpoint first_definition (k : string) (lines : list string) : option string :=
  match lines with
  | [] => None
  | line :: rest =>
      match line_definition line with
      | Some (k', v) => if String.eqb k' k then Some v else first_definition k rest
      | None => first_definition k rest
      end
  end.

(** "first match wins across candidate roots": the [.env] of the first
    declared root that has one. *)
Fixpoint first_match (fs : filesystem) (roots : list string) : env_file :=
  match roots with
  | [] => Absent
  | root :: rest =>
      match root_env fs root with
      | Absent => first_match fs rest
      | found => found
      end
  end.

Definition lines_of (f : env_file) : list string :=
  match f with
  | Present lines _ => lines
  | Absent => []
  end.

(** "declared workspace roots first, current directory second" *)
Definition lines_in_read_order (fs : filesystem) (roots : list string) : list string :=
  lines_of (first_match fs roots) ++ lines_of (cwd_env fs).

(** A file that can be read to its end and defines no variable that
    [os.putenv] refuses. *)
Definition clean_line (line : string) : bool :=
  match line_definition line with
  | Some (k, v) => putenv_ok k v
  | None => true
  end.

Definition clean_file (f : env_file) : bool :=
  match f with
  | Present lines readable => readable && forallb clean_line lines
  | Absent => true
  end.

(** ** Running a hook

    What the host observes of a hook is the documents it prints and its exit
    status; what the memory service observes is the calls made to it.  A
    [hook] computation yields a value, or stops ([sys.exit] or an uncaught
    exception), and logs its prints and calls. *)

Record hook_result : Type := HookResult {
  action : string;
  context : option string;
}.

(** [{"action": "continue"}] *)
Definition default_result : hook_result := HookResult "continue" None.

Inductive stop : Type :=
| Exited (code : Z)       (* [sys.exit(code)] *)
| Uncaught (e : exn).     (* traceback, exit status 1 *)

Section hook_monad.
Context {call : Type}.

Inductive output : Type :=
| Print (doc : hook_result)
| Call (c : call).

Definition hook (A : Type) : Type := list output * (A + stop).

Definition hook_ret {A} (a : A) : hook A := ([], inl a).

Definition hook_bind {A B} (f : A → hook B) (m : hook A) : hook B :=
  match m with
  | (log, inl a) => let '(log', r) := f a in (log ++ log', r)
  | (log, inr s) => (log, inr s)
  end.

(** [print(json.dumps(doc))] *)
Definition print (doc : hook_result) : hook unit := ([Print doc], inl ()).

Definition sys_exit {A} (code : Z) : hook A := ([], inr (Exited code)).

Definition remote (c : call) : hook unit := ([Call c], inl ()).

(** An exception nobody catches ends the process. *)
Definition run {A} (r : result A) : hook A :=
  match r with
  | Ok a => ([], inl a)
  | Raise e => ([], inr (Uncaught e))
  end.

Definition stdout {A} (h : hook A) : list hook_result :=
  omap (λ o, match o with Print doc => Some doc | Call _ => None end) h.1.

Definition calls {A} (h : hook A) : list call :=
  omap (λ o, match o with Call c => Some c | Print _ => None end) h.1.

(** The exit status of the process: falling off the end of [main] is
    status 0, an uncaught exception status 1. *)
Definition exit_status {A} (h : hook A) : Z :=
  match h.2 with
  | inl _ => 0
  | inr (Exited code) => code
  | inr (Uncaught _) => 1
  end.
End hook_monad.
Arguments output : clear implicits.
Arguments hook : clear implicits.

#[export] Instance hook_mret {call} : MRet (hook call) := @hook_ret call.
#[export] Instance hook_mbind {call} : MBind (hook call) := @hook_bind call.

(** ** The save hook: transcript normalisation ([memory_save.py]) *)

(** A normalised message, the dict [{"role": role, "content": content}]
    appended by [extract_messages].  The role is whatever the transcript
    entry carried; the content is always a [str]. *)
Record message : Type := Message { role : json; content : string }.

(** Lines 80-81: [if len(content) > 2000: content = content[:2000] + "..."]. *)
Definition truncate_content (content : string) : string :=
  if (2000 <? String.length content)%nat
  then str_take 2000 content +:+ "..."
  else content.

Definition is_text_tag (v : json) : bool :=
  match v with
  | JStr s => String.eqb s "text"
  | _ => false
  end.

(** Lines 72-76, one turn of the loop over the parts of a list content:
    what, if anything, is appended to [text_parts]. *)
Definition text_part (part : json) : option json :=
  match part with
  | JObj d =>
      if is_text_tag (dict_get d "type" JNull)
      then Some (dict_get d "text" (JStr ""))
      else None
  | JStr s => Some part
  | _ => None
  end.

(** Lines 70-77: a list content is replaced by the space-joined text parts;
    [" ".join] raises on a part whose text is not a [str]. *)
Definition flatten_content (content : json) : result json :=
  match content with
  | JArr parts => JStr <$> py_join " " (JArr (omap text_part parts))
  | _ => Ok content
  end.

(** Lines 67-86, one turn of the loop over [recent]: the messages list after
    the entry [msg] has been handled. *)
Definition process_entry (messages : list message) (msg : json) : result (list message) :=
  role ← py_get msg "role" (JStr "");
  content ← py_get msg "content" (JStr "");
  content ← flatten_content content;
  if truthy role && truthy content
  then match content with
       | JStr text => Ok (messages ++ [Message role (truncate_content text)])
       | _ => Ok messages
       end
  else Ok messages.

(** The [for msg in recent] loop, threading [messages]. *)
Fixpoint extract_loop (recent : list json) (messages : list message) : result (list message) :=
  match recent with
  | [] => Ok messages
  | msg :: rest => messages ← process_entry messages msg; extract_loop rest messages
  end.

(** [transcript[-max_messages:]] followed by iteration.  A list is sliced; a
    string is sliced too and then iterated by character; a dict or a number
    cannot be sliced (for a dict the exception is a [KeyError] from Python
    3.12 on; nothing below depends on which one it is). *)
Definition recent_entries (transcript : json) (max_messages : Z) : result (list json) :=
  match transcript with
  | JArr items => Ok (slice_tail items max_messages)
  | JStr s => Ok ((λ c, JStr (String c "")) <$> slice_tail (chars s) max_messages)
  | _ => Raise TypeError
  end.

(** Line 58: [input_data.get("transcript", []) or input_data.get("messages", [])]. *)
Definition transcript_field (input_data : json) : result json :=
  first ← py_get input_data "transcript" (JArr []);
  if truthy first then Ok first else py_get input_data "messages" (JArr []).

Definition extract_messages (input_data : json) (max_messages : Z) : result (list message) :=
  transcript ← transcript_field input_data;
  if negb (truthy transcript) then Ok []
  else
    recent ← recent_entries transcript max_messages;
    extract_loop recent [].


(** *** The normalisation as the specification words it *)

(** The most recent [n] elements of a sequence, in their original order. *)
Definition last_n {A} (n : nat) (l : list A) : list A := drop (length l - n) l.

(** "only parts that are plain strings or structured parts tagged as text
    are concatenated (space-joined) into a single string, all other part
    kinds are dropped silently" *)
Definition spec_part_text (part : json) : option string :=
  match part with
  | JStr s => Some s
  | JObj d =>
      if is_text_tag (dict_get d "type" JNull)
      then match dict_get d "text" (JStr "") with
           | JStr t => Some t
           | _ => None
           end
      else None
  | _ => None
  end.

Definition spec_derived_content (content : json) : option string :=
  match content with
  | JStr s => Some s
  | JArr parts => Some (str_join " " (omap spec_part_text parts))
  | _ => None
  end.

(** "Entries missing role, missing usable content, or whose derived content
    is not a string are dropped"; a kept entry is normalised, its content
    truncated. *)
Definition spec_valid_entry (entry : json) : option message :=
  match entry with
  | JObj d =>
      let role := dict_get d "role" (JStr "") in
      match spec_derived_content (dict_get d "content" (JStr "")) with
      | Some text =>
          if truthy role && negb (String.eqb text "")
          then Some (Message role (truncate_content text))
          else None
      | None => None
      end
  | _ => None
  end.

(** "The resulting sequence is truncated to at most the configured
    save-message limit by keeping the most recent N entries": invalid
    entries are dropped from the whole transcript first. *)
Definition spec_extract_messages (transcript : list json) (n : nat) : list message :=
  last_n n (omap spec_valid_entry transcript).

(** Entries on which the loop body cannot raise: each is a dict, and in a
    list content every part tagged as text carries a string (or no) text. *)
Definition wf_part (part : json) : bool :=
  match text_part part with
  | Some (JStr _) | None => true
  | Some _ => false
  end.

Definition wf_entry (entry : json) : bool :=
  match entry with
  | JObj d =>
      match dict_get d "content" (JStr "") with
      | JArr parts => forallb wf_part parts
      | _ => true
      end
  | _ => false
  end.

(** A text message: an entry whose role is truthy and whose content is a
    non-empty string, the entries that pass [if role and content and
    isinstance(content, str)].  An entry with a role and the empty string as
    content is none. *)
Definition text_message (entry : json) : option (json * string) :=
  match entry with
  | JObj d =>
      let role := dict_get d "role" (JStr "") in
      match dict_get d "content" (JStr "") with
      | JStr text =>
          if truthy role && negb (String.eqb text "") then Some (role, text) else None
      | _ => None
      end
  | _ => None
  end.

Definition normalized (m : json * string) : message :=
  Message m.1 (truncate_content m.2).

(** *** Sample transcripts *)

Definition entry_of (r c : string) : json :=
  JObj [("role", JStr r); ("content", JStr c)].

(** Two valid entries followed by one without content. *)
Definition transcript_with_invalid_tail : list json :=
  [entry_of "user" "first"; entry_of "assistant" "second"; JObj [("role", JStr "user")]].

Definition transcript_three_texts : list json :=
  [entry_of "user" "one"; entry_of "assistant" "two"; entry_of "user" "three"].

(** One entry that has a role and a plain text content string, the empty
    one. *)
Definition transcript_empty_content : list json := [entry_of "user" ""].

(** *** The save hook itself *)

Module Save.
Record config : Type := Config {
  api_key : string;
  user_id : string;
  save_messages : Z;
}.

(** The one call the save hook makes: [client.add(messages, user_id=...)]
    on a client built with the API key. *)
Inductive call : Type :=
| Add (cfg : config) (messages : list message).

(** The [mem0] package: whether it can be imported, and whether a call to
    [add] (building the client included) returns rather than raises. *)
Record mem0 : Type := {
  importable : bool;
  add_returns : config → list message → bool;
}.

Section with_runtime.
Context `{Runtime}.

Definition get_config (env : environ) : result config :=
  let api_key := environ_get env "MEM0_API_KEY" "" in
  let user_id := environ_get env "MEM0_USER_ID" "cursor-user" in
  save_messages ← int_of_str (environ_get env "MEM0_SAVE_MESSAGES" "10");
  Ok (Config api_key user_id save_messages).

Definition save_memories (client : mem0) (messages : list message) (cfg : config)
    : hook call bool :=
  if importable client
  then remote (Add cfg messages);; mret (add_returns client cfg messages)
  else mret false.

Definition main (fs : filesystem) (client : mem0) (env : environ) (stdin : string)
    : hook call unit :=
  let '(env, raised) := load_env_file fs env in
  match raised with
  | Some e => run (Raise e)
  | None =>
      input_data ← match json_loads stdin with
                   | Some input_data => mret input_data
                   | None => print default_result;; sys_exit 0
                   end;
      cfg ← run (get_config env);
      (if String.eqb (api_key cfg) ""
       then print default_result;; sys_exit 0
       else mret ());;
      messages ← run (extract_messages input_data (save_messages cfg));
      match messages with
      | [] => mret false
      | _ => save_memories client messages cfg
      end;;
      print default_result
  end.
End with_runtime.
End Save.

(** ** The retrieval hook ([memory_retrieve.py]) *)

Definition memories_header : string :=
  "## Relevant memories from previous conversations:" +:+ NL.

Module Retrieve.
Section with_runtime.
Context `{Runtime}.

Record config : Type := Config {
  api_key : string;
  user_id : string;
  top_k : Z;
  threshold : pyfloat;
  auto_save : bool;
}.

(** The calls the retrieval hook makes, each on a client built with the
    API key: [client.search(query=..., filters=..., top_k=...,
    threshold=...)] and [client.add(messages=[{"role": "user",
    "content": prompt}], user_id=...)]. *)
Inductive call : Type :=
| Search (cfg : config) (query : json)
| Add (cfg : config) (prompt : json).

(** The [mem0] package: whether it can be imported, and what a search
    returns ([None] when building the client or the search raises). *)
Record mem0 : Type := {
  importable : bool;
  search_response : config → json → option json;
}.

Definition get_config (env : environ) : result config :=
  let api_key := environ_get env "MEM0_API_KEY" "" in
  let user_id := environ_get env "MEM0_USER_ID" "cursor-user" in
  top_k ← int_of_str (environ_get env "MEM0_TOP_K" "5");
  threshold ← float_of_str (environ_get env "MEM0_THRESHOLD" "0.3");
  let auto_save :=
    String.eqb (lower (environ_get env "MEM0_AUTO_SAVE" "true")) "true" in
  Ok (Config api_key user_id top_k threshold auto_save).

(** Every failure, a failed import included, gives the empty list. *)
Definition search_memories (client : mem0) (query : json) (cfg : config)
    : hook call json :=
  if importable client
  then
    remote (Search cfg query);;
    match search_response client cfg query with
    | Some (JObj d) => mret (dict_get d "results" (JArr []))
    | Some (JArr items) => mret (JArr items)
    | Some _ => mret (JArr [])
    | None => mret (JArr [])
    end
  else mret (JArr []).

(** The save runs in a thread that is joined for at most two seconds;
    whatever it does, nothing of it reaches [main]. *)
Definition save_prompt_async (client : mem0) (prompt : json) (cfg : config)
    : hook call unit :=
  if importable client then remote (Add cfg prompt) else mret ().

(** Lines 106-112, one turn of the loop over [results]. *)
Definition format_record (memories : list string) (r : json) : result (list string) :=
  memory ← py_get r "memory" (JStr "");
  if truthy memory
  then
    categories ← py_get r "categories" (JArr []);
    if truthy categories
    then
      joined ← py_join ", " categories;
      Ok (memories ++ ["- [" +:+ joined +:+ "] " +:+ format_value memory])
    else Ok (memories ++ ["- " +:+ format_value memory])
  else Ok memories.

Fixpoint format_loop (results : list json) (memories : list string)
    : result (list string) :=
  match results with
  | [] => Ok memories
  | r :: rest => memories ← format_record memories r; format_loop rest memories
  end.

Definition format_memories (results : json) : result string :=
  items ← py_iter results;
  memories ← format_loop items [];
  match memories with
  | [] => Ok ""
  | _ => Ok (memories_header +:+ str_join NL memories)
  end.

Definition main (fs : filesystem) (client : mem0) (env : environ) (stdin : string)
    : hook call unit :=
  let '(env, raised) := load_env_file fs env in
  match raised with
  | Some e => run (Raise e)
  | None =>
      input_data ← match json_loads stdin with
                   | Some input_data => mret input_data
                   | None => print default_result;; sys_exit 0
                   end;
      prompt ← run (py_get input_data "prompt" (JStr ""));
      user_prompt ← (if truthy prompt then mret prompt
                     else run (py_get input_data "query" (JStr "")));
      (if negb (truthy user_prompt)
       then print default_result;; sys_exit 0
       else mret ());;
      cfg ← run (get_config env);
      (if String.eqb (api_key cfg) ""
       then print default_result;; sys_exit 0
       else mret ());;
      results ← search_memories client user_prompt cfg;
      (if auto_save cfg then save_prompt_async client user_prompt cfg else mret ());;
      (if truthy results
       then
         message ← run (format_memories results);
         if negb (String.eqb message "")
         then print (HookResult "continue" (Some message));; sys_exit 0
         else mret ()
       else mret ());;
      print default_result
  end.
End with_runtime.
End Retrieve.

(** *** The formatter as the specification words it *)

(** A memory record as the hook reads it: its [memory] text and its
    categories, absent fields counting as empty. *)
Definition as_strings (items : list json) : option (list string) :=
  match all_str items with
  | Ok l => Some l
  | Raise _ => None
  end.

Definition as_record (r : json) : option (string * list string) :=
  match r with
  | JObj d =>
      match dict_get d "memory" (JStr ""), dict_get d "categories" (JArr []) with
      | JStr memory, JArr items => pair memory <$> as_strings items
      | JStr memory, JNull => Some (memory, [])
      | _, _ => None
      end
  | _ => None
  end.

(** "renders a bullet line; if the record carries a non-empty categories
    sequence, prefixes the line with [cat1, cat2, ...]" *)
Definition spec_bullet (rec : string * list string) : string :=
  match rec.2 with
  | [] => "- " +:+ rec.1
  | cats => "- [" +:+ str_join ", " cats +:+ "] " +:+ rec.1
  end.

(** "Filters out records whose memory field is empty. ... Returns the empty
    string if no record survives filtering. Otherwise prepends a fixed
    section header." *)
Definition spec_format_memories (records : list (string * list string)) : string :=
  match filter (λ rec, rec.1 ≠ "") records with
  | [] => ""
  | kept => memories_header +:+ str_join NL (spec_bullet <$> kept)
  end.

(** ** Sample runtime and inputs for the closed examples *)

Definition dq : string := String (ascii_of_nat 34) "".

(** ["key"] as it is written in a JSON text. *)
Definition quoted (s : string) : string := dq +:+ s +:+ dq.

Definition digit_value (c : ascii) : option Z :=
  let n := nat_of_ascii c in
  if ((48 <=? n) && (n <=? 57))%nat then Some (Z.of_nat (n - 48)) else None.

Fixpoint digits_value (s : string) (acc : Z) : option Z :=
  match s with
  | EmptyString => Some acc
  | String c s' => d ← digit_value c; digits_value s' (10 * acc + d)
  end.

(** Plain decimal numerals, which [int] reads as written. *)
Definition decimal_int (s : string) : option Z :=
  match s with
  | EmptyString => None
  | _ => digits_value s 0
  end.

(** Decimal numerals with an optional fraction, kept as exact rationals. *)
Fixpoint decimal_frac (s : string) (num : Z) (den : positive) : option Q :=
  match s with
  | EmptyString => Some (num # den)
  | String c s' => d ← digit_value c; decimal_frac s' (10 * num + d) (10 * den)
  end.

Fixpoint decimal_float_from (s : string) (acc : Z) : option Q :=
  match s with
  | EmptyString => Some (acc # 1)
  | String c s' =>
      if Ascii.eqb c "."
      then match s' with EmptyString => None | _ => decimal_frac s' acc 1 end
      else d ← digit_value c; decimal_float_from s' (10 * acc + d)
  end.

Definition decimal_float (s : string) : option Q :=
  match s with
  | EmptyString => None
  | String c _ => if Ascii.eqb c "." then None else decimal_float_from s 0
  end.

(** The documents the examples feed to the decoder, with their values. *)
Definition prompt_42_text : string := "{" +:+ quoted "prompt" +:+ ": 42}".
Definition prompt_hello_text : string :=
  "{" +:+ quoted "prompt" +:+ ": " +:+ quoted "hello" +:+ "}".
Definition strings_transcript_text : string :=
  "{" +:+ quoted "transcript" +:+ ": [" +:+ quoted "hello" +:+ "]}".

Definition roots_text : string :=
  "{" +:+ quoted "workspace_roots" +:+ ": [" +:+ quoted "/a" +:+ ", "
      +:+ quoted "/b" +:+ "]}".

Definition sample_documents : list (string * json) :=
  [("{}", JObj []);
   ("[]", JArr []);
   (prompt_42_text, JObj [("prompt", JNum 42)]);
   (prompt_hello_text, JObj [("prompt", JStr "hello")]);
   (strings_transcript_text, JObj [("transcript", JArr [JStr "hello"])]);
   (roots_text, JObj [("workspace_roots", JArr [JStr "/a"; JStr "/b"])])].

(** A decoder that knows the sample documents and takes any other text for
    malformed; the examples give it no other JSON text. *)
Definition sample_loads (text : string) : option json :=
  dict_lookup sample_documents text.

(** The examples format no value that is not a string, so [py_repr] is
    never consulted. *)
Definition sample_runtime : Runtime := {|
  pyfloat := Q;
  json_loads := sample_loads;
  py_int := decimal_int;
  py_float := decimal_float;
  py_repr := λ _, "";
|}.

(** No [.env] file anywhere. *)
Definition no_env_files : filesystem := {| root_env := λ _, Absent; cwd_env := Absent |}.

(** A memory service that cannot be reached: the package is installed,
    every call raises. *)
Definition unreachable_retrieve : @Retrieve.mem0 sample_runtime :=
  {| Retrieve.importable := true; Retrieve.search_response := λ _ _, None |}.

Definition unreachable_save : Save.mem0 :=
  {| Save.importable := true; Save.add_returns := λ _ _, false |}.

Definition env_with_key : environ := {[ "MEM0_API_KEY" := "secret" ]}.
Definition env_empty_key : environ := {[ "MEM0_API_KEY" := "" ]}.
Definition env_bad_top_k : environ := {[ "MEM0_TOP_K" := "abc" ]}.

(** The records of the formatting example. *)
Definition example_records : json :=
  JArr [JObj [("memory", JStr "likes dark mode");
              ("categories", JArr [JStr "preferences"])];
        JObj [("memory", JStr ""); ("categories", JArr [])]].

Definition example_records_read : list (string * list string) :=
  [("likes dark mode", ["preferences"]); ("", [])].

(** A root without a [.env], a root with one, and a [.env] in the current
    directory that defines one of the same variables again. *)
Definition two_env_files : filesystem := {|
  root_env := λ root,
    if String.eqb root "/b"
    then Present ["MEM0_USER_ID=alice" +:+ NL; "# tuning" +:+ NL; "MEM0_TOP_K = 3" +:+ NL] true
    else Absent;
  cwd_env := Present ["MEM0_USER_ID=bob" +:+ NL; "MEM0_API_KEY=other" +:+ NL] true;
|}.

Definition env_with_roots : environ :=
  {[ "CURSOR_HOOK_INPUT" := roots_text; "MEM0_API_KEY" := "secret" ]}.

Definition env_auto_save (v : string) : environ := {[ "MEM0_AUTO_SAVE" := v ]}.

(** ** Vocabulary of the statements *)

(** The option [k] is set to a text the builtin does not read as a number. *)
Definition malformed_int `{Runtime} (env : environ) (k : string) : Prop :=
  ∃ s, env !! k = Some s ∧ py_int s = None.

Definition malformed_float `{Runtime} (env : environ) (k : string) : Prop :=
  ∃ s, env !! k = Some s ∧ py_float s = None.

(** The invocation fails: nothing is printed and an exception ends it. *)
Definition hook_failed {call A} (h : hook call A) : Prop :=
  stdout h = [] ∧ ∃ e, h.2 = inr (Uncaught e).

(** The invocation prints the default result, once, and exits with 0. *)
Definition emits_default {call A} (h : hook call A) : Prop :=
  stdout h = [default_result] ∧ exit_status h = 0.

Fixpoint str_repeat (c : ascii) (n : nat) : string :=
  match n with
  | O => ""
  | S n' => String c (str_repeat c n')
  end.

(** A content of 2001 characters. *)
Definition long_content : string := str_repeat "x" 2001.

Definition three_texts_read : list (json * string) :=
  [(JStr "user", "one"); (JStr "assistant", "two"); (JStr "user", "three")].

(** The configuration the sample runtime resolves when only the API key is
    set. *)
Definition sample_config : @Retrieve.config sample_runtime :=
  Retrieve.Config (H := sample_runtime) "secret" "cursor-user" 5 (3 # 10) true.

(** An entry whose content is a list of parts: a plain string, a text part,
    an image part. *)
Definition entry_with_parts : json :=
  JObj [("role", JStr "user");
        ("content", JArr [JStr "x";
                          JObj [("type", JStr "text"); ("text", JStr "y")];
                          JObj [("type", JStr "image"); ("url", JStr "z")]])].

(** ** Vocabulary of the further properties *)

(** What [client.add] can be handed: a message with a truthy role and a
    non-empty content of at most 2003 characters. *)
Definition sendable (m : message) : Prop :=
  truthy (role m) = true ∧ content m ≠ "" ∧ (String.length (content m) ≤ 2003)%nat.

(** ["=" in s] *)
Fixpoint has_eq (s : string) : bool :=
  match s with
  | String c s' => Ascii.eqb c "=" || has_eq s'
  | EmptyString => false
  end.

(** What [search_memories] hands back to [main]. *)
Definition search_results `{Runtime} (client : Retrieve.mem0) (query : json)
    (cfg : Retrieve.config) : json :=
  match (Retrieve.search_memories client query cfg).2 with
  | inl results => results
  | inr _ => JArr []
  end.

(** The calls of a retrieval that gets as far as the memory service. *)
Definition retrieval_calls `{Runtime} (client : Retrieve.mem0) (prompt : json)
    (cfg : Retrieve.config) : list (output Retrieve.call) :=
  if Retrieve.importable client
  then Call (Retrieve.Search cfg prompt)
         :: (if Retrieve.auto_save cfg then [Call (Retrieve.Add cfg prompt)] else [])
  else [].

(** A response of the memory service that is neither a dict nor a list. *)
Definition unexpected_shape (response : json) : bool :=
  match response with
  | JObj _ | JArr _ => false
  | _ => true
  end.

Definition is_object (v : json) : bool :=
  match v with
  | JObj _ => true
  | _ => false
  end.

(** A service that answers every search with one record. *)
Definition answering_retrieve : @Retrieve.mem0 sample_runtime :=
  {| Retrieve.importable := true;
     Retrieve.search_response := λ _ _,
       Some (JObj [("results", example_records)]) |}.

(** A service that answers with a list holding a string where a record
    should be. *)
Definition garbled_retrieve : @Retrieve.mem0 sample_runtime :=
  {| Retrieve.importable := true;
     Retrieve.search_response := λ _ _, Some (JArr [JStr "oops"]) |}.

Definition transcript_text : string :=
  "{" +:+ quoted "messages" +:+ ": [{" +:+ quoted "role" +:+ ": " +:+ quoted "user"
      +:+ ", " +:+ quoted "content" +:+ ": " +:+ quoted "test message" +:+ "}]}".

(** The payload of the test "Should handle 'messages' field". *)
Definition transcript_doc : json :=
  JObj [("messages", JArr [entry_of "user" "test message"])].

(** A decoder that knows this one document. *)
Definition transcript_runtime : Runtime := {|
  pyfloat := Q;
  json_loads := dict_lookup [(transcript_text, transcript_doc)];
  py_int := decimal_int;
  py_float := decimal_float;
  py_repr := λ _, "";
|}.

(** A string that does not start with whitespace. *)
Definition head_ok (s : string) : bool :=
  match s with
  | String c _ => negb (is_space c)
  | EmptyString => true
  end.

(** The value an option resolves to: the variable of the environment when
    it is set, else the earliest definition in the lines read, else the
    default. *)
Definition resolved (env : environ) (lines : list string) (k dflt : string) : string :=
  default dflt (match env !! k with
                | Some v => Some v
                | None => first_definition k lines
                end).

(** * Properties *)

(** ** The definitions on small inputs *)

Example slice_tail_examples :
  slice_tail [1; 2; 3; 4; 5] 2 = [4; 5] ∧
  slice_tail [1; 2; 3] 10 = [1; 2; 3] ∧
  slice_tail [1; 2; 3] 0 = [1; 2; 3] ∧
  slice_tail [1; 2; 3] (-1) = [2; 3] ∧
  slice_tail [1; 2; 3] (-7) = [].
Proof. repeat split; reflexivity. Qed.

Example line_definition_examples :
  line_definition ("  MEM0_USER_ID = alice  " +:+ NL) = Some ("MEM0_USER_ID", "alice") ∧
  line_definition "A=b=c" = Some ("A", "b=c") ∧
  line_definition "# A=b" = None ∧
  line_definition "no equals sign" = None ∧
  line_definition "=x" = Some ("", "x").
Proof. repeat split; reflexivity. Qed.

Example lower_examples :
  lower "TrUe" = "true" ∧ lower "YES" = "yes" ∧ lower "true " = "true ".
Proof. repeat split; reflexivity. Qed.

Example process_entry_examples :
  process_entry [] entry_with_parts = Ok [Message (JStr "user") "x y"] ∧
  process_entry [] (JObj [("content", JStr "no role")]) = Ok [] ∧
  process_entry [] (JObj [("role", JStr "user"); ("content", JNum 3)]) = Ok [] ∧
  process_entry [] (JStr "not an entry") = Raise AttributeError ∧
  process_entry []
    (JObj [("role", JStr "user");
           ("content", JArr [JObj [("type", JStr "text"); ("text", JNull)]])])
    = Raise TypeError.
Proof. repeat split; reflexivity. Qed.

Example get_config_defaults :
  Retrieve.get_config (H := sample_runtime) ∅
    = Ok (Retrieve.Config (H := sample_runtime) "" "cursor-user" 5 (3 # 10) true) ∧
  Save.get_config (H := sample_runtime) ∅ = Ok (Save.Config "" "cursor-user" 10).
Proof. split; reflexivity. Qed.

(** A line that defines the empty name makes [os.putenv] raise; in the
    current directory's file nothing catches it. *)
Example load_env_file_empty_name :
  load_env_file (H := sample_runtime)
    {| root_env := λ _, Absent; cwd_env := Present ["=x" +:+ NL] true |} ∅
    = (∅, Some OSError).
Proof. reflexivity. Qed.

(** ** Strings *)

Lemma str_length_app (a b : string) :
  String.length (a +:+ b) = (String.length a + String.length b)%nat.
Proof. induction a as [|c a IH]; simpl; [done | by rewrite IH]. Qed.

Lemma str_take_length (n : nat) (s : string) :
  (n ≤ String.length s)%nat → String.length (str_take n s) = n.
Proof.
  revert s; induction n as [|n IH]; intros [|c s]; simpl; intros H; try lia.
  rewrite IH; lia.
Qed.

Lemma str_take_all (n : nat) (s : string) :
  (String.length s ≤ n)%nat → str_take n s = s.
Proof.
  revert s; induction n as [|n IH]; intros [|c s]; simpl; intros H; try done; try lia.
  rewrite IH; [done | lia].
Qed.

Lemma str_take_take_app (n : nat) (s t : string) :
  (n ≤ String.length s)%nat → str_take n (str_take n s +:+ t) = str_take n s.
Proof.
  revert s; induction n as [|n IH]; intros [|c s]; simpl; intros H; try done; try lia.
  rewrite IH; [done | lia].
Qed.

(** ** Truncation of a message content *)

Lemma truncate_short (s : string) :
  (String.length s ≤ 2000)%nat → truncate_content s = s.
Proof.
  intros H. unfold truncate_content.
  destruct (Nat.ltb_spec 2000 (String.length s)); [lia | done].
Qed.

Lemma truncate_long (s : string) :
  (2000 < String.length s)%nat → truncate_content s = str_take 2000 s +:+ "...".
Proof.
  intros H. unfold truncate_content.
  destruct (Nat.ltb_spec 2000 (String.length s)); [done | lia].
Qed.

Lemma truncate_long_length (s : string) :
  (2000 < String.length s)%nat → String.length (truncate_content s) = 2003%nat.
Proof.
  intros H. rewrite truncate_long by done.
  rewrite str_length_app, str_take_length by lia. done.
Qed.

(** C4. The truncation step leaves a content of at most 2000 characters
    unchanged, turns a longer one into its first 2000 characters followed by
    the marker ["..."], and is idempotent: truncating a truncated content
    gives it back. *)
Theorem truncate_content_idempotent (s : string) :
  ((String.length s ≤ 2000)%nat → truncate_content s = s) ∧
  ((2000 < String.length s)%nat →
     truncate_content s = str_take 2000 s +:+ "..." ∧
     String.length (str_take 2000 s) = 2000%nat) ∧
  truncate_content (truncate_content s) = truncate_content s.
Proof.
  split; [apply truncate_short|]. split.
  - intros H. split; [by apply truncate_long | apply str_take_length; lia].
  - destruct (Nat.le_gt_cases (String.length s) 2000) as [H|H].
    + by rewrite !(truncate_short s H).
    + rewrite (truncate_long (truncate_content s))
        by (rewrite truncate_long_length by done; lia).
      rewrite (truncate_long s) by done.
      rewrite str_take_take_app by lia. done.
Qed.

(** ** Transcript normalisation *)

Lemma slice_tail_pos {A} (l : list A) (m : Z) :
  0 < m → slice_tail l m = last_n (Z.to_nat m) l.
Proof.
  intros Hm. unfold slice_tail, last_n.
  destruct (Z.ltb_spec (- m) 0); [|lia].
  f_equal. lia.
Qed.

Lemma slice_tail_zero {A} (l : list A) : slice_tail l 0 = l.
Proof. unfold slice_tail. simpl. by rewrite Z.min_l by lia. Qed.

Lemma last_n_all {A} (n : nat) (l : list A) :
  (length l ≤ n)%nat → last_n n l = l.
Proof. intros H. unfold last_n. by replace (length l - n)%nat with 0%nat by lia. Qed.

Lemma last_n_length {A} (n : nat) (l : list A) :
  length (last_n n l) = (length l `min` n)%nat.
Proof. unfold last_n. rewrite length_drop. lia. Qed.

Lemma all_str_JStr (l : list string) : all_str (JStr <$> l) = Ok l.
Proof. induction l as [|x l IH]; csimpl; [done | by rewrite IH]. Qed.

Lemma text_part_wf (part : json) :
  wf_part part = true → text_part part = JStr <$> spec_part_text part.
Proof.
  unfold wf_part, text_part, spec_part_text.
  destruct part as [| | | |?|d]; try done.
  destruct (is_text_tag _); [|done].
  by destruct (dict_get d "text" _).
Qed.

Lemma omap_text_part_wf (parts : list json) :
  forallb wf_part parts = true →
  omap text_part parts = JStr <$> omap spec_part_text parts.
Proof.
  induction parts as [|p parts IH]; [done|].
  intros [Hp Hps]%andb_prop. csimpl.
  rewrite (text_part_wf p Hp), (IH Hps).
  by destruct (spec_part_text p).
Qed.

Lemma flatten_content_wf (d : list (string * json)) :
  wf_entry (JObj d) = true →
  flatten_content (dict_get d "content" (JStr "")) =
    Ok (match spec_derived_content (dict_get d "content" (JStr "")) with
        | Some text => JStr text
        | None => dict_get d "content" (JStr "")
        end).
Proof.
  unfold wf_entry, flatten_content, spec_derived_content.
  destruct (dict_get d "content" _) as [| | | |parts|]; try done.
  intros Hwf. unfold py_join. csimpl.
  by rewrite (omap_text_part_wf parts Hwf), all_str_JStr.
Qed.

Lemma process_entry_wf (messages : list message) (entry : json) :
  wf_entry entry = true →
  process_entry messages entry =
    Ok (messages ++ option_list (spec_valid_entry entry)).
Proof.
  destruct entry as [| | | | |d]; try done.
  intros Hwf. unfold process_entry, spec_valid_entry. csimpl.
  rewrite (flatten_content_wf d Hwf). csimpl.
  destruct (dict_get d "content" _) as [| |q|s|parts|d2] eqn:Hc; csimpl;
    rewrite ?app_nil_r; try done;
    destruct (truthy (dict_get d "role" _)); simpl; rewrite ?app_nil_r; try done;
    repeat case_match; simpl; rewrite ?app_nil_r; done.
Qed.

Lemma extract_loop_wf (recent : list json) (messages : list message) :
  forallb wf_entry recent = true →
  extract_loop recent messages = Ok (messages ++ omap spec_valid_entry recent).
Proof.
  revert messages. induction recent as [|e recent IH]; intros messages.
  - by rewrite app_nil_r.
  - intros [He Hr]%andb_prop. csimpl.
    rewrite (process_entry_wf messages e He). csimpl.
    rewrite (IH _ Hr), <-app_assoc.
    by destruct (spec_valid_entry e).
Qed.

Lemma omap_length_le {A B} (f : A → option B) (l : list A) :
  (length (omap f l) ≤ length l)%nat.
Proof. induction l as [|x l IH]; csimpl; [done|]. destruct (f x); simpl; lia. Qed.

Lemma extract_messages_recent (input_data : json) (transcript : list json) (N : Z) :
  transcript_field input_data = Ok (JArr transcript) →
  0 < N →
  extract_messages input_data N = extract_loop (last_n (Z.to_nat N) transcript) [].
Proof.
  intros Hfield HN. unfold extract_messages. rewrite Hfield. csimpl.
  destruct transcript as [|e transcript]; [done|].
  csimpl. by rewrite slice_tail_pos.
Qed.

Lemma extract_messages_wf (input_data : json) (transcript : list json) (N : Z) :
  transcript_field input_data = Ok (JArr transcript) →
  0 < N →
  forallb wf_entry (last_n (Z.to_nat N) transcript) = true →
  extract_messages input_data N =
    Ok (omap spec_valid_entry (last_n (Z.to_nat N) transcript)).
Proof.
  intros Hfield HN Hwf.
  rewrite (extract_messages_recent _ transcript) by done.
  by rewrite extract_loop_wf.
Qed.

(** C3 (as stated, refuted).  With a limit of 2 and a transcript whose last
    entry is invalid, the code keeps one message, while dropping invalid
    entries first and keeping the last 2 afterwards would keep two. *)
Lemma extract_messages_not_filter_then_tail :
  extract_messages (JObj [("transcript", JArr transcript_with_invalid_tail)]) 2
    = Ok [Message (JStr "assistant") "second"] ∧
  spec_extract_messages transcript_with_invalid_tail 2
    = [Message (JStr "user") "first"; Message (JStr "assistant") "second"] ∧
  extract_messages (JObj [("transcript", JArr transcript_with_invalid_tail)]) 2
    ≠ Ok (spec_extract_messages transcript_with_invalid_tail 2).
Proof. split; [|split]; [reflexivity .. | discriminate]. Qed.

(** C3 (amended).  For every transcript sequence and every positive limit N
    the save hook first keeps the most recent N entries of the whole
    transcript, whatever the entries before them are, and then drops the
    invalid ones among them, in the original order: the result is the list
    of valid normalised entries of the last N transcript entries, so it
    holds at most N messages. *)
Theorem extract_messages_tail_then_filter
    (input_data : json) (transcript : list json) (N : Z) :
  transcript_field input_data = Ok (JArr transcript) →
  0 < N →
  extract_messages input_data N
    = extract_loop (last_n (Z.to_nat N) transcript) [] ∧
  (forallb wf_entry (last_n (Z.to_nat N) transcript) = true →
   ∃ messages,
     extract_messages input_data N = Ok messages ∧
     messages = omap spec_valid_entry (last_n (Z.to_nat N) transcript) ∧
     Z.of_nat (length messages) ≤ N).
Proof.
  intros Hfield HN. split; [by apply extract_messages_recent|].
  intros Hwf. eexists. split; [by apply extract_messages_wf|].
  split; [done|].
  pose proof (omap_length_le spec_valid_entry (last_n (Z.to_nat N) transcript)) as Hle.
  rewrite last_n_length in Hle. lia.
Qed.

(** *** Transcripts of plain text messages *)

Lemma text_message_wf (entry : json) (m : json * string) :
  text_message entry = Some m →
  wf_entry entry = true ∧ spec_valid_entry entry = Some (normalized m).
Proof.
  unfold text_message, wf_entry, spec_valid_entry, normalized.
  destruct entry as [| | | | |d]; try done.
  destruct (dict_get d "content" _) as [| | |text| |]; try done.
  simpl. destruct (truthy _ && _); [|done].
  intros [= <-]. done.
Qed.

Lemma text_transcript_wf (transcript : list json) (msgs : list (json * string)) :
  Forall2 (λ entry m, text_message entry = Some m) transcript msgs →
  forallb wf_entry transcript = true ∧
  omap spec_valid_entry transcript = normalized <$> msgs.
Proof.
  induction 1 as [|e m transcript msgs He _ [IHwf IHeq]]; [done|].
  destruct (text_message_wf e m He) as [Hwf Hv].
  csimpl. rewrite Hwf, Hv, IHwf, IHeq. done.
Qed.

(** C5 (as stated, refuted).  Three entries that each have a role and a
    plain text content string, under a limit of 0: N > limit, yet all three
    messages come out, not [limit] of them.  And one entry whose plain text
    content is the empty string, under a limit of 10: N ≤ limit, yet no
    message comes out, not N of them. *)
Lemma extract_messages_text_not_limit_messages :
  (0 < Z.of_nat (length transcript_three_texts) ∧
   extract_messages (JObj [("transcript", JArr transcript_three_texts)]) 0
     = Ok [Message (JStr "user") "one"; Message (JStr "assistant") "two";
           Message (JStr "user") "three"] ∧
   ∀ out, extract_messages (JObj [("transcript", JArr transcript_three_texts)]) 0
            = Ok out → Z.of_nat (length out) ≠ 0) ∧
  (Z.of_nat (length transcript_empty_content) ≤ 10 ∧
   extract_messages (JObj [("transcript", JArr transcript_empty_content)]) 10
     = Ok [] ∧
   ∀ out, extract_messages (JObj [("transcript", JArr transcript_empty_content)]) 10
            = Ok out → length out ≠ length transcript_empty_content).
Proof.
  split; (split; [simpl; lia|]; split; [reflexivity|]);
    intros out [= <-]; discriminate.
Qed.

(** C5 (amended).  A transcript of N entries that each have a truthy role
    and a non-empty plain text content string, normalised under a positive
    save-message limit: when N ≤ limit all N messages come out, in the
    original order; when N > limit exactly [limit] messages come out, the
    most recent ones in the original order. *)
Theorem extract_messages_text_round_trip
    (input_data : json) (transcript : list json) (msgs : list (json * string))
    (limit : Z) :
  transcript_field input_data = Ok (JArr transcript) →
  Forall2 (λ entry m, text_message entry = Some m) transcript msgs →
  0 < limit →
  (Z.of_nat (length transcript) ≤ limit →
     extract_messages input_data limit = Ok (normalized <$> msgs) ∧
     length (normalized <$> msgs) = length transcript) ∧
  (limit < Z.of_nat (length transcript) →
     extract_messages input_data limit
       = Ok (normalized <$> last_n (Z.to_nat limit) msgs) ∧
     Z.of_nat (length (normalized <$> last_n (Z.to_nat limit) msgs)) = limit).
Proof.
  intros Hfield Htext Hlimit.
  pose proof (Forall2_length _ _ _ Htext) as Hlen.
  assert (Hrecent : Forall2 (λ entry m, text_message entry = Some m)
            (last_n (Z.to_nat limit) transcript) (last_n (Z.to_nat limit) msgs)).
  { unfold last_n. rewrite Hlen. by apply Forall2_drop. }
  destruct (text_transcript_wf _ _ Hrecent) as [Hwf Heq].
  pose proof (extract_messages_wf input_data transcript limit Hfield Hlimit Hwf)
    as Hrun.
  rewrite Heq in Hrun. split; intros HN.
  - rewrite last_n_all in Hrun by lia.
    split; [done | by rewrite length_fmap].
  - split; [done|]. rewrite length_fmap, last_n_length. lia.
Qed.

(** With a limit of zero the slice [transcript[-0:]] is the whole transcript:
    nothing is cut off. *)
Lemma extract_messages_zero_limit :
  extract_messages (JObj [("transcript", JArr transcript_three_texts)]) 0
    = Ok [Message (JStr "user") "one"; Message (JStr "assistant") "two";
          Message (JStr "user") "three"].
Proof. reflexivity. Qed.

(** ** The response formatter *)

Section formatter.
Context `{Runtime}.

Lemma as_strings_length (items : list json) (cats : list string) :
  as_strings items = Some cats → length cats = length items.
Proof.
  unfold as_strings. revert cats.
  induction items as [|v items IH]; intros cats; csimpl.
  - by intros [= <-].
  - destruct v; csimpl; try done.
    destruct (all_str items) as [l|]; csimpl; [|done].
    intros [= <-]. simpl. f_equal. by apply IH.
Qed.

Lemma py_join_strings (sep : string) (items : list json) (cats : list string) :
  as_strings items = Some cats → py_join sep (JArr items) = Ok (str_join sep cats).
Proof.
  unfold as_strings, py_join. csimpl.
  destruct (all_str items); [|done]. by intros [= ->].
Qed.

Lemma format_record_spec (memories : list string) (r : json)
    (rec : string * list string) :
  as_record r = Some rec →
  Retrieve.format_record memories r =
    Ok (memories ++ (spec_bullet <$> filter (λ rec, rec.1 ≠ "") [rec])).
Proof.
  unfold as_record, Retrieve.format_record.
  destruct r as [| | | | |d]; try done. csimpl.
  destruct (dict_get d "memory" _) as [| | |memory| |]; try done.
  rewrite filter_cons, filter_nil. simpl.
  destruct (dict_get d "categories" _) as [| | | |items|]; try done.
  - intros [= <-]. simpl.
    destruct (String.eqb_spec memory ""); simpl.
    + rewrite decide_False by auto. by rewrite app_nil_r.
    + by rewrite decide_True.
  - destruct (as_strings items) as [cats|] eqn:Hcats; [|done].
    intros [= <-]. simpl.
    destruct (String.eqb_spec memory ""); simpl.
    { rewrite decide_False by auto. by rewrite app_nil_r. }
    rewrite decide_True by done.
    pose proof (as_strings_length _ _ Hcats) as Hlen.
    pose proof (py_join_strings ", " _ _ Hcats) as Hjoin.
    destruct items as [|v items], cats as [|c cats]; try done.
    rewrite Hjoin. done.
Qed.

Lemma format_loop_spec (results : list json)
    (records : list (string * list string)) (memories : list string) :
  Forall2 (λ r rec, as_record r = Some rec) results records →
  Retrieve.format_loop results memories =
    Ok (memories ++ (spec_bullet <$> filter (λ rec, rec.1 ≠ "") records)).
Proof.
  intros Hrec. revert memories.
  induction Hrec as [|r rec results records Hr _ IH]; intros memories.
  - by rewrite app_nil_r.
  - csimpl. rewrite (format_record_spec memories r rec Hr). csimpl.
    rewrite IH, <-app_assoc, <-fmap_app. do 3 f_equal.
    rewrite (filter_cons _ rec records), filter_cons, filter_nil.
    by destruct (decide _).
Qed.

Lemma format_memories_refines (results : list json)
    (records : list (string * list string)) :
  Forall2 (λ r rec, as_record r = Some rec) results records →
  Retrieve.format_memories (JArr results) = Ok (spec_format_memories records).
Proof.
  intros Hrec. unfold Retrieve.format_memories, spec_format_memories. csimpl.
  rewrite (format_loop_spec results records [] Hrec). csimpl.
  by destruct (filter _ records).
Qed.
End formatter.

(** C7.  For every list of memory records the formatter drops the records
    whose memory is empty and renders each remaining one as a bullet line,
    prefixed with its bracketed, comma-separated categories when it has
    any; it returns the empty string when no record remains and otherwise
    puts the fixed section header before the lines.  The example of the
    specification gives the header and the single line
    ["- [preferences] likes dark mode"]; records that all have an empty
    memory give the empty string. *)
Theorem format_memories_correct `{Runtime}
    (results : list json) (records : list (string * list string)) :
  Forall2 (λ r rec, as_record r = Some rec) results records →
  let kept := filter (λ rec, rec.1 ≠ "") records in
  Retrieve.format_memories (JArr results) = Ok (spec_format_memories records) ∧
  (kept ≠ [] →
     Retrieve.format_memories (JArr results)
       = Ok (memories_header +:+ str_join NL (spec_bullet <$> kept))) ∧
  (Forall (λ rec, rec.1 = "") records →
     Retrieve.format_memories (JArr results) = Ok "") ∧
  Retrieve.format_memories example_records
    = Ok (memories_header +:+ "- [preferences] likes dark mode").
Proof.
  intros Hrec kept.
  pose proof (format_memories_refines results records Hrec) as Hrun.
  split; [done|]. split; [|split].
  - intros Hkept. rewrite Hrun. unfold spec_format_memories.
    fold kept. by destruct kept.
  - intros Hempty. rewrite Hrun. unfold spec_format_memories.
    replace (filter (λ rec, rec.1 ≠ "") records) with (@nil (string * list string));
      [done|].
    symmetry. clear -Hempty. induction Hempty as [|rec records Hr _ IH]; [done|].
    rewrite filter_cons, decide_False by auto. done.
  - apply (format_memories_refines _ example_records_read).
    repeat constructor.
Qed.

Lemma format_memories_correct_witness :
  Forall2 (λ r rec, as_record r = Some rec)
    [JObj [("memory", JStr "likes dark mode"); ("categories", JArr [JStr "preferences"])];
     JObj [("memory", JStr ""); ("categories", JArr [])]]
    example_records_read ∧
  Retrieve.format_memories (H := sample_runtime) example_records
    = Ok (spec_format_memories example_records_read).
Proof.
  assert (Hrec : Forall2 (λ r rec, as_record r = Some rec)
    [JObj [("memory", JStr "likes dark mode"); ("categories", JArr [JStr "preferences"])];
     JObj [("memory", JStr ""); ("categories", JArr [])]]
    example_records_read) by (repeat constructor).
  split; [exact Hrec|].
  exact (proj1 (format_memories_correct (H := sample_runtime) _ _ Hrec)).
Defined.

(** ** Loading the [.env] file *)

Lemma first_definition_app (k : string) (l1 l2 : list string) :
  first_definition k (l1 ++ l2) =
    match first_definition k l1 with
    | Some v => Some v
    | None => first_definition k l2
    end.
Proof.
  induction l1 as [|line l1 IH]; [done|]. simpl.
  destruct (line_definition line) as [[k' v]|]; [|done].
  by destruct (String.eqb k' k).
Qed.

Lemma load_line_definition (env : environ) (line : string) :
  load_line env line =
    match line_definition line with
    | Some (k, v) => setdefault env k v
    | None => Ok env
    end.
Proof.
  unfold load_line, line_definition.
  destruct (_ && _); [|done].
  by destruct (split_eq (strip line)) as [[key value]|].
Qed.

Lemma setdefault_frame (env env' : environ) (k v k0 v0 : string) :
  setdefault env k v = Ok env' → env !! k0 = Some v0 → env' !! k0 = Some v0.
Proof.
  unfold setdefault. destruct (env !! k) eqn:Hk.
  - by intros [= <-].
  - destruct (putenv_ok k v); [|done]. intros [= <-] H0.
    rewrite lookup_insert_ne; [done|]. by intros ->; rewrite Hk in H0.
Qed.

Lemma load_line_frame (env env' : environ) (line k0 v0 : string) :
  load_line env line = Ok env' → env !! k0 = Some v0 → env' !! k0 = Some v0.
Proof.
  rewrite load_line_definition.
  destruct (line_definition line) as [[k v]|].
  - apply setdefault_frame.
  - by intros [= <-].
Qed.

Lemma load_lines_frame (lines : list string) (env : environ) (k0 v0 : string) :
  env !! k0 = Some v0 → (load_lines lines env).1 !! k0 = Some v0.
Proof.
  revert env. induction lines as [|line lines IH]; intros env H0; [done|].
  simpl. destruct (load_line env line) as [env'|e] eqn:Hline; [|done].
  apply IH. by eapply load_line_frame.
Qed.

Lemma read_env_fst (lines : list string) (readable : bool) (env : environ) :
  (read_env lines readable env).1 = (load_lines lines env).1.
Proof. unfold read_env. by destruct (load_lines lines env). Qed.

Lemma load_roots_frame (fs : filesystem) (roots : list json) (env : environ)
    (k0 v0 : string) :
  env !! k0 = Some v0 → (load_roots fs roots env).1 !! k0 = Some v0.
Proof.
  intros H0. induction roots as [|root roots IH]; [done|].
  simpl. destruct root; try done.
  destruct (root_env fs s); [done|].
  rewrite read_env_fst. by apply load_lines_frame.
Qed.

Section loading.
Context `{Runtime}.

Lemma load_workspace_env_frame (fs : filesystem) (env : environ) (k0 v0 : string) :
  env !! k0 = Some v0 → load_workspace_env fs env !! k0 = Some v0.
Proof.
  intros H0. unfold load_workspace_env.
  destruct (json_loads _) as [doc|]; [|done].
  destruct (py_get doc _ _ ≫= py_iter) as [roots|]; [|done].
  by apply load_roots_frame.
Qed.

(** Whatever it reads, [load_env_file] leaves the variables that are set
    as they are. *)
Lemma load_env_file_frame (fs : filesystem) (env : environ) (k0 v0 : string) :
  env !! k0 = Some v0 → (load_env_file fs env).1 !! k0 = Some v0.
Proof.
  intros H0. unfold load_env_file.
  pose proof (load_workspace_env_frame fs env k0 v0 H0) as H1.
  destruct (cwd_env fs); [done|].
  rewrite read_env_fst. by apply load_lines_frame.
Qed.
End loading.

Lemma load_lines_clean (lines : list string) (env : environ) :
  forallb clean_line lines = true →
  (load_lines lines env).2 = None ∧
  ∀ k, (load_lines lines env).1 !! k =
         match env !! k with
         | Some v => Some v
         | None => first_definition k lines
         end.
Proof.
  revert env. induction lines as [|line lines IH]; intros env.
  { intros _. split; [done|]. intros k. simpl. by destruct (env !! k). }
  intros [Hline Hlines]%andb_prop. simpl.
  rewrite load_line_definition. unfold clean_line in Hline.
  destruct (line_definition line) as [[k' v']|].
  - unfold setdefault. destruct (env !! k') as [old|] eqn:Hk'.
    + destruct (IH env Hlines) as [Hnone Hlook]. split; [done|].
      intros k. rewrite Hlook. destruct (env !! k) eqn:Hk; [done|].
      destruct (String.eqb_spec k' k) as [->|]; [congruence | done].
    + rewrite Hline.
      destruct (IH (<[k' := v']> env) Hlines) as [Hnone Hlook]. split; [done|].
      intros k. rewrite Hlook.
      destruct (String.eqb_spec k' k) as [->|Hne].
      * by rewrite lookup_insert_eq, Hk'.
      * by rewrite lookup_insert_ne.
  - by apply IH.
Qed.

Lemma read_env_clean (lines : list string) (readable : bool) (env : environ) :
  clean_file (Present lines readable) = true →
  (read_env lines readable env).2 = None ∧
  ∀ k, (read_env lines readable env).1 !! k =
         match env !! k with
         | Some v => Some v
         | None => first_definition k lines
         end.
Proof.
  simpl. intros [-> Hlines]%andb_prop.
  destruct (load_lines_clean lines env Hlines) as [Hnone Hlook].
  unfold read_env. destruct (load_lines lines env) as [env' e].
  simpl in *. by subst e.
Qed.

(** Among the declared roots the first one that has a [.env] is the one
    read; the roots after it are not looked at. *)
Lemma load_roots_first_match (fs : filesystem) (roots : list string) (env : environ) :
  load_roots fs (JStr <$> roots) env =
    match first_match fs roots with
    | Present lines readable => read_env lines readable env
    | Absent => (env, None)
    end.
Proof.
  induction roots as [|root roots IH]; [done|].
  csimpl. by destruct (root_env fs root).
Qed.


(** ** The hooks *)

#[local] Arguments truthy : simpl never.

(** One step of a case analysis that follows [main] through its tests. *)
Ltac hook_step :=
  match goal with
  | |- context [json_loads ?s] => destruct (json_loads s) eqn:?
  | |- context [py_get ?v ?k ?d] => destruct (py_get v k d) eqn:?
  | |- context [Retrieve.get_config ?env] => destruct (Retrieve.get_config env) eqn:?
  | |- context [Retrieve.format_memories ?r] => destruct (Retrieve.format_memories r) eqn:?
  | |- context [Retrieve.search_response ?c ?cfg ?q] =>
      destruct (Retrieve.search_response c cfg q) as [[| | | | |]|] eqn:?
  | |- context [Retrieve.importable ?c] => destruct (Retrieve.importable c) eqn:?
  | |- context [Retrieve.auto_save ?cfg] => destruct (Retrieve.auto_save cfg) eqn:?
  | |- context [truthy ?v] => destruct (truthy v) eqn:?
  | |- context [String.eqb ?a ?b] => destruct (String.eqb a b) eqn:?
  end.

Section retrieve_hook.
Context `{Runtime}.

(** An object payload without a usable prompt: the default result, exit
    status 0, and no call to the memory service. *)
Lemma retrieve_main_no_prompt (fs : filesystem) (client : Retrieve.mem0)
    (env : environ) (stdin : string) (d : list (string * json)) :
  (load_env_file fs env).2 = None →
  json_loads stdin = Some (JObj d) →
  truthy (dict_get d "prompt" (JStr "")) = false →
  truthy (dict_get d "query" (JStr "")) = false →
  Retrieve.main fs client env stdin = ([Print default_result], inr (Exited 0)).
Proof.
  intros Hload Hdoc Hprompt Hquery. unfold Retrieve.main.
  destruct (load_env_file fs env) as [env' raised]. simpl in Hload. subst raised.
  rewrite Hdoc. csimpl. rewrite Hprompt. csimpl. rewrite Hquery. done.
Qed.



(** With the auto-save flag off the retrieval hook never calls [add]. *)
Lemma retrieve_main_no_auto_save (fs : filesystem) (client : Retrieve.mem0)
    (env : environ) (stdin : string) (cfg : Retrieve.config) :
  Retrieve.get_config (load_env_file fs env).1 = Ok cfg →
  Retrieve.auto_save cfg = false →
  Forall (λ c, ∃ cfg' query, c = Retrieve.Search cfg' query)
    (calls (Retrieve.main fs client env stdin)).
Proof.
  intros Hcfg Hflag. unfold Retrieve.main, calls.
  destruct (load_env_file fs env) as [env' [e|]]; [by constructor|].
  simpl in Hcfg. rewrite Hcfg.
  unfold Retrieve.search_memories, Retrieve.save_prompt_async.
  repeat (csimpl; rewrite ?Hflag; try hook_step);
    repeat constructor; eauto.
Qed.
End retrieve_hook.

Section save_hook.
Context `{Runtime}.


End save_hook.

(** ** Configuration *)

Section configuration.
Context `{Runtime}.

Lemma retrieve_get_config_malformed (env : environ) :
  malformed_int env "MEM0_TOP_K" ∨ malformed_float env "MEM0_THRESHOLD" →
  Retrieve.get_config env = Raise ValueError.
Proof.
  unfold Retrieve.get_config, int_of_str, float_of_str, environ_get.
  intros [(s & Hs & Hbad)|(s & Hs & Hbad)]; rewrite Hs; simpl; rewrite Hbad.
  - done.
  - by destruct (py_int _).
Qed.

Lemma save_get_config_malformed (env : environ) :
  malformed_int env "MEM0_SAVE_MESSAGES" →
  Save.get_config env = Raise ValueError.
Proof.
  unfold Save.get_config, int_of_str, environ_get.
  intros (s & Hs & Hbad). rewrite Hs. simpl. by rewrite Hbad.
Qed.

Lemma malformed_int_loaded (fs : filesystem) (env : environ) (k : string) :
  malformed_int env k → malformed_int (load_env_file fs env).1 k.
Proof.
  intros (s & Hs & Hbad). exists s. split; [|done].
  by apply load_env_file_frame.
Qed.

Lemma malformed_float_loaded (fs : filesystem) (env : environ) (k : string) :
  malformed_float env k → malformed_float (load_env_file fs env).1 k.
Proof.
  intros (s & Hs & Hbad). exists s. split; [|done].
  by apply load_env_file_frame.
Qed.

Lemma retrieve_main_malformed_config (fs : filesystem) (client : Retrieve.mem0)
    (env : environ) (stdin : string) (d : list (string * json)) :
  malformed_int env "MEM0_TOP_K" ∨ malformed_float env "MEM0_THRESHOLD" →
  json_loads stdin = Some (JObj d) →
  truthy (py_or (dict_get d "prompt" (JStr "")) (dict_get d "query" (JStr ""))) = true →
  hook_failed (Retrieve.main fs client env stdin).
Proof.
  intros Hbad Hdoc Hprompt.
  assert (Hcfg : Retrieve.get_config (load_env_file fs env).1 = Raise ValueError).
  { apply retrieve_get_config_malformed.
    destruct Hbad; [left; by apply malformed_int_loaded
                   | right; by apply malformed_float_loaded]. }
  unfold hook_failed, stdout, Retrieve.main.
  destruct (load_env_file fs env) as [env' [e|]]; [by eauto|].
  simpl in Hcfg. rewrite Hdoc, Hcfg. csimpl.
  unfold py_or in Hprompt.
  destruct (truthy (dict_get d "prompt" _)) eqn:Hp; csimpl.
  - rewrite Hp. csimpl. eauto.
  - rewrite Hprompt. csimpl. eauto.
Qed.

Lemma save_main_malformed_config (fs : filesystem) (client : Save.mem0)
    (env : environ) (stdin : string) (doc : json) :
  malformed_int env "MEM0_SAVE_MESSAGES" →
  json_loads stdin = Some doc →
  hook_failed (Save.main fs client env stdin).
Proof.
  intros Hbad Hdoc.
  assert (Hcfg : Save.get_config (load_env_file fs env).1 = Raise ValueError).
  { apply save_get_config_malformed. by apply malformed_int_loaded. }
  unfold hook_failed, stdout, Save.main.
  destruct (load_env_file fs env) as [env' [e|]]; [by eauto|].
  simpl in Hcfg. rewrite Hdoc, Hcfg. csimpl. eauto.
Qed.
End configuration.

(** ** The statements about the hooks *)

(** Closed statements about sample runs are settled by evaluation. *)
Ltac by_evaluation :=
  repeat match goal with |- _ ∧ _ => split end; reflexivity.

(** C1 (the code departs from it).  Input that is JSON but not an object
    makes the retrieval hook raise at [input_data.get]: nothing is printed
    and the exit status is 1.  The save hook, once it has a credential,
    fails the same way on such input and on a transcript whose entries are
    not objects. *)
Theorem main_fails_on_non_object_input :
  Retrieve.main (H := sample_runtime) no_env_files unreachable_retrieve ∅ "[]"
    = ([], inr (Uncaught AttributeError)) ∧
  stdout (Retrieve.main (H := sample_runtime) no_env_files unreachable_retrieve ∅ "[]")
    = [] ∧
  exit_status (Retrieve.main (H := sample_runtime) no_env_files unreachable_retrieve ∅ "[]")
    = 1 ∧
  Save.main (H := sample_runtime) no_env_files unreachable_save env_with_key "[]"
    = ([], inr (Uncaught AttributeError)) ∧
  Save.main (H := sample_runtime) no_env_files unreachable_save env_with_key
      strings_transcript_text
    = ([], inr (Uncaught AttributeError)).
Proof. by_evaluation. Qed.

(** C2 (the code departs from it).  With the API key resolved to the empty
    string the retrieval hook still raises on input that is JSON but not an
    object, before it reaches the test of the key: it prints no result. *)
Theorem retrieve_main_empty_key_non_object_input :
  Retrieve.api_key <$> Retrieve.get_config (H := sample_runtime) env_empty_key = Ok "" ∧
  Retrieve.main (H := sample_runtime) no_env_files unreachable_retrieve env_empty_key "[]"
    = ([], inr (Uncaught AttributeError)) ∧
  calls (Retrieve.main (H := sample_runtime) no_env_files unreachable_retrieve
           env_empty_key "[]") = [].
Proof. by_evaluation. Qed.

(** C6 (as stated, refuted).  A prompt that is a number is not a non-empty
    string, yet with a credential the hook searches for it and saves it. *)
Lemma retrieve_main_searches_non_string_prompt :
  json_loads (Runtime := sample_runtime) prompt_42_text
    = Some (JObj [("prompt", JNum 42)]) ∧
  calls (Retrieve.main (H := sample_runtime) no_env_files unreachable_retrieve
           env_with_key prompt_42_text)
    = [Retrieve.Search sample_config (JNum 42); Retrieve.Add sample_config (JNum 42)].
Proof. by_evaluation. Qed.

(** C6 (amended).  For every parsed payload that is an object in which
    neither the prompt field nor the query field is truthy (absent, empty
    string, null, false, zero, empty list or object), the retrieval hook,
    once the [.env] loading has gone through, prints the default result,
    exits with 0 and makes no call to the memory service. *)
Theorem retrieve_main_without_prompt `{Runtime}
    (fs : filesystem) (client : Retrieve.mem0) (env : environ) (stdin : string)
    (d : list (string * json)) :
  (load_env_file fs env).2 = None →
  json_loads stdin = Some (JObj d) →
  truthy (dict_get d "prompt" (JStr "")) = false →
  truthy (dict_get d "query" (JStr "")) = false →
  emits_default (Retrieve.main fs client env stdin) ∧
  calls (Retrieve.main fs client env stdin) = [].
Proof.
  intros Hload Hdoc Hprompt Hquery.
  by rewrite (retrieve_main_no_prompt fs client env stdin d).
Qed.

Lemma retrieve_main_without_prompt_witness :
  emits_default (Retrieve.main (H := sample_runtime) no_env_files unreachable_retrieve
                   env_with_key "{}") ∧
  calls (Retrieve.main (H := sample_runtime) no_env_files unreachable_retrieve
           env_with_key "{}") = [].
Proof.
  apply (retrieve_main_without_prompt (H := sample_runtime) no_env_files
           unreachable_retrieve env_with_key "{}" []); reflexivity.
Defined.

(** C8 (as stated, refuted).  With the result count set to a text that is
    not a number, configuration resolution raises, but the retrieval hook
    resolves its configuration only after it has found a prompt: on input
    that is not JSON, or has no prompt, it prints the default result and
    exits with 0. *)
Lemma retrieve_main_emits_despite_malformed_option :
  py_int (Runtime := sample_runtime) "abc" = None ∧
  Retrieve.get_config (H := sample_runtime) env_bad_top_k = Raise ValueError ∧
  Retrieve.main (H := sample_runtime) no_env_files unreachable_retrieve env_bad_top_k
      "not valid json"
    = ([Print default_result], inr (Exited 0)) ∧
  Retrieve.main (H := sample_runtime) no_env_files unreachable_retrieve env_bad_top_k "{}"
    = ([Print default_result], inr (Exited 0)).
Proof. by_evaluation. Qed.

(** C8 (amended).  When a numeric option read by a hook is set to a text
    that does not parse as the required number, that hook's configuration
    resolution raises [ValueError], and every invocation that reaches it
    fails without printing a result: the retrieval hook (result count,
    similarity threshold) when its input is an object with a truthy prompt
    or query, the save hook (save-message limit) when its input is JSON. *)
Theorem malformed_numeric_option_raises `{Runtime} (fs : filesystem) (env : environ) :
  (malformed_int env "MEM0_TOP_K" ∨ malformed_float env "MEM0_THRESHOLD" →
     Retrieve.get_config env = Raise ValueError ∧
     ∀ (client : Retrieve.mem0) (stdin : string) (d : list (string * json)),
       json_loads stdin = Some (JObj d) →
       truthy (py_or (dict_get d "prompt" (JStr "")) (dict_get d "query" (JStr "")))
         = true →
       hook_failed (Retrieve.main fs client env stdin)) ∧
  (malformed_int env "MEM0_SAVE_MESSAGES" →
     Save.get_config env = Raise ValueError ∧
     ∀ (client : Save.mem0) (stdin : string) (doc : json),
       json_loads stdin = Some doc →
       hook_failed (Save.main fs client env stdin)).
Proof.
  split; intros Hbad.
  - split; [by apply retrieve_get_config_malformed|].
    intros client stdin d. by apply retrieve_main_malformed_config.
  - split; [by apply save_get_config_malformed|].
    intros client stdin doc. by apply save_main_malformed_config.
Qed.

Lemma malformed_numeric_option_raises_witness :
  malformed_int (H := sample_runtime) env_bad_top_k "MEM0_TOP_K" ∧
  Retrieve.get_config (H := sample_runtime) env_bad_top_k = Raise ValueError ∧
  hook_failed (Retrieve.main (H := sample_runtime) no_env_files unreachable_retrieve
                 env_bad_top_k prompt_hello_text).
Proof.
  assert (Hbad : malformed_int (H := sample_runtime) env_bad_top_k "MEM0_TOP_K")
    by (exists "abc"; split; reflexivity).
  destruct (proj1 (malformed_numeric_option_raises (H := sample_runtime)
                     no_env_files env_bad_top_k) (or_introl Hbad)) as [Hcfg Hmain].
  split; [exact Hbad|]. split; [exact Hcfg|].
  apply (Hmain unreachable_retrieve prompt_hello_text [("prompt", JStr "hello")]);
    reflexivity.
Defined.

(** C10.  The resolved auto-save flag is true exactly when the value of
    [MEM0_AUTO_SAVE], lowercased, is ["true"]; it is true when the variable
    is not set, and false for ["1"], ["yes"] and ["on"]; when it is false
    the hook makes no [add] call, so the prompt is not saved. *)
Theorem auto_save_only_when_true `{Runtime} (env : environ) (cfg : Retrieve.config) :
  Retrieve.get_config env = Ok cfg →
  (Retrieve.auto_save cfg = true ↔
     lower (environ_get env "MEM0_AUTO_SAVE" "true") = "true") ∧
  (env !! "MEM0_AUTO_SAVE" = None → Retrieve.auto_save cfg = true) ∧
  (∀ v, v ∈ ["1"; "yes"; "on"] →
        env !! "MEM0_AUTO_SAVE" = Some v → Retrieve.auto_save cfg = false) ∧
  (Retrieve.auto_save cfg = false →
   ∀ (fs : filesystem) (client : Retrieve.mem0) (env0 : environ) (stdin : string),
     (load_env_file fs env0).1 = env →
     Forall (λ c, ∃ cfg' query, c = Retrieve.Search cfg' query)
       (calls (Retrieve.main fs client env0 stdin))).
Proof.
  intros Hcfg.
  assert (Hflag : Retrieve.auto_save cfg =
                    String.eqb (lower (environ_get env "MEM0_AUTO_SAVE" "true")) "true").
  { unfold Retrieve.get_config in Hcfg.
    destruct (int_of_str _); [|done]. destruct (float_of_str _); [|done].
    csimpl in Hcfg. by injection Hcfg as <-. }
  split; [by rewrite Hflag, String.eqb_eq|]. split; [|split].
  - intros Hunset. rewrite Hflag. unfold environ_get. by rewrite Hunset.
  - intros v Hv Hset. rewrite Hflag. unfold environ_get. rewrite Hset.
    repeat (apply elem_of_cons in Hv as [->|Hv]; [done|]).
    by apply elem_of_nil in Hv.
  - intros Hoff fs client env0 stdin Henv.
    apply (retrieve_main_no_auto_save fs client env0 stdin cfg); [|done].
    by rewrite Henv.
Qed.

Lemma auto_save_only_when_true_witness :
  Retrieve.get_config (H := sample_runtime) (env_auto_save "yes")
    = Ok (Retrieve.Config (H := sample_runtime) "" "cursor-user" 5 (3 # 10) false) ∧
  Retrieve.auto_save (Retrieve.Config (H := sample_runtime) "" "cursor-user" 5 (3 # 10) false)
    = false.
Proof.
  assert (Hcfg : Retrieve.get_config (H := sample_runtime) (env_auto_save "yes")
                   = Ok (Retrieve.Config (H := sample_runtime) "" "cursor-user" 5 (3 # 10) false))
    by reflexivity.
  split; [exact Hcfg|].
  apply (proj1 (proj2 (proj2 (auto_save_only_when_true (H := sample_runtime)
                                (env_auto_save "yes") _ Hcfg))) "yes").
  - set_solver.
  - reflexivity.
Defined.

(** ** The statements on sample inputs *)

Lemma truncate_content_idempotent_witness :
  truncate_content "hello" = "hello" ∧
  truncate_content long_content = str_take 2000 long_content +:+ "..." ∧
  truncate_content (truncate_content long_content) = truncate_content long_content.
Proof.
  split; [|split].
  - apply (proj1 (truncate_content_idempotent "hello")). simpl. lia.
  - apply (proj1 (proj2 (truncate_content_idempotent long_content))).
    cut (String.length long_content = 2001%nat);
      [intros ->; lia | vm_compute; reflexivity].
  - apply (proj2 (proj2 (truncate_content_idempotent long_content))).
Defined.

Lemma extract_messages_tail_then_filter_witness :
  ∃ messages,
    extract_messages (JObj [("transcript", JArr transcript_with_invalid_tail)]) 2
      = Ok messages ∧
    messages = omap spec_valid_entry (last_n 2 transcript_with_invalid_tail) ∧
    Z.of_nat (length messages) ≤ 2.
Proof.
  refine (proj2 (extract_messages_tail_then_filter
                   (JObj [("transcript", JArr transcript_with_invalid_tail)])
                   transcript_with_invalid_tail 2 _ _) _).
  - reflexivity.
  - lia.
  - reflexivity.
Defined.

Lemma extract_messages_text_round_trip_witness :
  extract_messages (JObj [("messages", JArr transcript_three_texts)]) 5
    = Ok (normalized <$> three_texts_read) ∧
  extract_messages (JObj [("messages", JArr transcript_three_texts)]) 2
    = Ok (normalized <$> last_n 2 three_texts_read).
Proof.
  assert (Htext : Forall2 (λ entry m, text_message entry = Some m)
                    transcript_three_texts three_texts_read)
    by (repeat constructor).
  split.
  - refine (proj1 (proj1 (extract_messages_text_round_trip
             (JObj [("messages", JArr transcript_three_texts)])
             transcript_three_texts three_texts_read 5 _ Htext _) _));
      [reflexivity | lia | simpl; lia].
  - refine (proj1 (proj2 (extract_messages_text_round_trip
             (JObj [("messages", JArr transcript_three_texts)])
             transcript_three_texts three_texts_read 2 _ Htext _) _));
      [reflexivity | lia | simpl; lia].
Defined.


(** The root file is read before the file of the current directory, and
    neither replaces the key that is set. *)
Example load_env_file_sample :
  let env := (load_env_file (H := sample_runtime) two_env_files env_with_roots).1 in
  env !! "MEM0_USER_ID" = Some "alice" ∧
  env !! "MEM0_TOP_K" = Some "3" ∧
  env !! "MEM0_API_KEY" = Some "secret".
Proof. repeat split; reflexivity. Qed.

(** * Further properties of the code *)

(** ** Truncation and normalisation *)

(** X1.  The truncation step keeps the first 2000 characters of every
    content; a content longer than 2000 characters comes out with exactly
    2003 characters (so one of 2001 or 2002 characters gets longer), any
    other content keeps its length. *)
Theorem truncate_content_length (s : string) :
  String.length (truncate_content s)
    = (if (2000 <? String.length s)%nat then 2003 else String.length s)%nat ∧
  str_take 2000 (truncate_content s) = str_take 2000 s.
Proof.
  destruct (Nat.ltb_spec 2000 (String.length s)) as [Hlong|Hshort].
  - split; [by apply truncate_long_length|].
    rewrite truncate_long by done. apply str_take_take_app. lia.
  - by rewrite truncate_short.
Qed.

Lemma truncate_content_nonempty (s : string) :
  s ≠ "" → truncate_content s ≠ "".
Proof.
  intros Hs Htrunc.
  destruct (Nat.le_gt_cases (String.length s) 2000) as [H|H].
  - by rewrite truncate_short in Htrunc.
  - pose proof (truncate_long_length s H) as Hlen. by rewrite Htrunc in Hlen.
Qed.

Lemma truncate_content_bound (s : string) :
  (String.length (truncate_content s) ≤ 2003)%nat.
Proof.
  destruct (Nat.le_gt_cases (String.length s) 2000) as [H|H].
  - rewrite truncate_short by done. lia.
  - rewrite truncate_long_length by done. lia.
Qed.

Lemma process_entry_sendable (messages messages' : list message) (msg : json) :
  process_entry messages msg = Ok messages' →
  messages' = messages ∨ ∃ m, messages' = messages ++ [m] ∧ sendable m.
Proof.
  unfold process_entry.
  destruct (py_get msg "role" _) as [r|]; [|done]. csimpl.
  destruct (py_get msg "content" _) as [c|]; [|done]. csimpl.
  destruct (flatten_content c) as [c'|]; [|done]. csimpl.
  destruct (truthy r) eqn:Hr; csimpl; [|by intros [= <-]; left].
  destruct (truthy c') eqn:Hc; csimpl; [|by intros [= <-]; left].
  destruct c' as [| | |text| |]; try (by intros [= <-]; left).
  intros [= <-]. right. eexists. split; [done|].
  assert (text ≠ "") by (intros ->; done).
  repeat split; simpl;
    [done | by apply truncate_content_nonempty | apply truncate_content_bound].
Qed.

Lemma extract_loop_sendable (recent : list json) (messages out : list message) :
  extract_loop recent messages = Ok out →
  ∃ new, out = messages ++ new ∧ Forall sendable new ∧
         (length new ≤ length recent)%nat.
Proof.
  revert messages. induction recent as [|e recent IH]; intros messages; csimpl.
  - intros [= <-]. exists []. by rewrite app_nil_r.
  - destruct (process_entry messages e) as [messages'|] eqn:He; [|done]. csimpl.
    intros (new & -> & Hnew & Hlen)%IH.
    destruct (process_entry_sendable _ _ _ He) as [->|(m & -> & Hm)].
    + exists new. repeat split; [done|lia].
    + exists (m :: new). rewrite <-app_assoc. repeat split; [by constructor|].
      simpl. lia.
Qed.

Lemma recent_entries_length (transcript : json) (n : Z) (recent : list json) :
  recent_entries transcript n = Ok recent →
  0 < n → Z.of_nat (length recent) ≤ n.
Proof.
  intros Hrecent Hn. destruct transcript; simplify_eq/=.
  - rewrite length_fmap, slice_tail_pos, last_n_length by done. lia.
  - rewrite slice_tail_pos, last_n_length by done. lia.
Qed.

Lemma extract_messages_inv
    (input_data : json) (max_messages : Z) (messages : list message) :
  extract_messages input_data max_messages = Ok messages →
  Forall sendable messages ∧
  (0 < max_messages → Z.of_nat (length messages) ≤ max_messages).
Proof.
  unfold extract_messages.
  destruct (transcript_field input_data) as [transcript|]; [|done]. csimpl.
  destruct (truthy transcript); csimpl; [|by intros [= <-]; split; [|simpl; lia]].
  destruct (recent_entries transcript max_messages) as [recent|] eqn:Hrecent;
    [|done]. csimpl.
  intros (new & -> & Hnew & Hlen)%extract_loop_sendable.
  split; [done|]. intros Hpos.
  pose proof (recent_entries_length _ _ _ Hrecent Hpos). simpl. lia.
Qed.

(** X2.  Whatever the payload and the limit, every message that
    [extract_messages] returns has a truthy role and a non-empty content of
    at most 2003 characters, and under a positive limit there are at most
    that many messages. *)
Theorem extract_messages_sendable
    (input_data : json) (max_messages : Z) (messages : list message) :
  extract_messages input_data max_messages = Ok messages →
  Forall sendable messages ∧
  (0 < max_messages → Z.of_nat (length messages) ≤ max_messages).
Proof. apply extract_messages_inv. Qed.

Lemma extract_messages_sendable_witness :
  Forall sendable [Message (JStr "assistant") "second"].
Proof.
  refine (proj1 (extract_messages_sendable
            (JObj [("transcript", JArr transcript_with_invalid_tail)]) 2
            [Message (JStr "assistant") "second"] _)).
  reflexivity.
Defined.

Lemma slice_tail_nonpos {A} (l : list A) (m : Z) :
  m ≤ 0 → slice_tail l m = drop (Z.to_nat (- m)) l.
Proof.
  intros Hm. unfold slice_tail.
  destruct (Z.ltb_spec (- m) 0); [lia|].
  destruct (Z.le_gt_cases (- m) (Z.of_nat (length l))).
  - by rewrite Z.min_l.
  - rewrite Z.min_r, Nat2Z.id by lia.
    rewrite !drop_ge; [done | lia | lia].
Qed.

(** X3.  A limit that is not positive does not mean "keep nothing": with a
    limit of 0 the whole transcript is normalised, and with a limit of -k
    the oldest k entries are dropped and all the others normalised. *)
Theorem extract_messages_nonpositive_limit
    (input_data : json) (transcript : list json) (limit : Z) :
  transcript_field input_data = Ok (JArr transcript) →
  limit ≤ 0 →
  forallb wf_entry (drop (Z.to_nat (- limit)) transcript) = true →
  extract_messages input_data limit
    = Ok (omap spec_valid_entry (drop (Z.to_nat (- limit)) transcript)).
Proof.
  intros Hfield Hlimit Hwf. unfold extract_messages. rewrite Hfield. csimpl.
  destruct transcript as [|e transcript].
  { by rewrite drop_nil. }
  unfold truthy. csimpl. rewrite slice_tail_nonpos by done.
  by rewrite extract_loop_wf.
Qed.

Lemma extract_messages_nonpositive_limit_witness :
  extract_messages (JObj [("transcript", JArr transcript_three_texts)]) (-1)
    = Ok [Message (JStr "assistant") "two"; Message (JStr "user") "three"].
Proof.
  apply (extract_messages_nonpositive_limit
           (JObj [("transcript", JArr transcript_three_texts)])
           transcript_three_texts (-1)); [reflexivity | lia | reflexivity].
Defined.

(** X4.  A transcript that is not a list is not skipped: a non-empty string
    makes [extract_messages] raise [AttributeError] at the first character
    (under a positive limit), a number or a boolean makes the slice raise
    [TypeError], and a non-empty dict makes it raise as well. *)
Theorem extract_messages_non_list_transcript
    (input_data transcript : json) (max_messages : Z) :
  transcript_field input_data = Ok transcript →
  truthy transcript = true →
  ((∃ s, transcript = JStr s) → 0 < max_messages →
     extract_messages input_data max_messages = Raise AttributeError) ∧
  ((∃ q, transcript = JNum q) ∨ (∃ b, transcript = JBool b) →
     extract_messages input_data max_messages = Raise TypeError) ∧
  ((∃ d, transcript = JObj d) →
     ∃ e, extract_messages input_data max_messages = Raise e).
Proof.
  intros Hfield Htruthy. unfold extract_messages. rewrite Hfield. csimpl.
  rewrite Htruthy. csimpl. split; [|split].
  - intros [s ->] Hpos. csimpl. rewrite slice_tail_pos by done.
    assert (Hne : last_n (Z.to_nat max_messages) (chars s) ≠ []).
    { intros Hnil. apply (f_equal length) in Hnil.
      rewrite last_n_length in Hnil.
      destruct s as [|c s]; [done|].
      change (length (chars (String c s))) with (S (length (chars s))) in Hnil.
      simpl length in Hnil. lia. }
    by destruct (last_n _ _).
  - by intros [[q ->]|[b ->]].
  - intros [d ->]. by eexists.
Qed.

Lemma extract_messages_non_list_transcript_witness :
  extract_messages (JObj [("transcript", JStr "hello")]) 10 = Raise AttributeError.
Proof.
  refine (proj1 (extract_messages_non_list_transcript
                   (JObj [("transcript", JStr "hello")]) (JStr "hello") 10 _ _)
            _ _); [reflexivity | reflexivity | by eexists | lia].
Defined.

(** X5.  Of a payload only the [transcript] field matters, or, when that one
    is absent or falsy, the [messages] field: a truthy [transcript] shadows
    [messages], and every other field is ignored. *)
Theorem extract_messages_field_precedence
    (d : list (string * json)) (max_messages : Z) :
  extract_messages (JObj d) max_messages =
    extract_messages
      (JObj [("transcript",
              py_or (dict_get d "transcript" (JArr [])) (dict_get d "messages" (JArr [])))])
      max_messages.
Proof.
  unfold extract_messages, transcript_field, py_or. csimpl.
  change (dict_get [("transcript", ?v)] "transcript" _) with v.
  change (dict_get [("transcript", ?v)] "messages" ?dflt) with dflt.
  destruct (truthy (dict_get d "transcript" _)) eqn:Ht; csimpl.
  - rewrite Ht. csimpl. by rewrite Ht.
  - destruct (truthy (dict_get d "messages" _)) eqn:Hm; csimpl.
    + by rewrite Hm.
    + done.
Qed.

(** ** The save hook as a whole *)

Section save_hook_runs.
Context `{Runtime}.

(** X6.  Whatever its input, environment and files, and whatever the memory
    service does, the save hook either prints the default result once and
    exits with 0, or prints nothing and dies of an uncaught exception; it
    makes at most one call, an [add], and only with a non-empty API key and
    a non-empty list of sendable messages taken from the payload. *)
Theorem save_main_outcomes (fs : filesystem) (client : Save.mem0)
    (env : environ) (stdin : string) :
  let run := Save.main fs client env stdin in
  (emits_default run ∨ hook_failed run) ∧
  (calls run = [] ∨
   ∃ cfg doc messages,
     json_loads stdin = Some doc ∧
     Save.get_config (load_env_file fs env).1 = Ok cfg ∧
     Save.api_key cfg ≠ "" ∧
     extract_messages doc (Save.save_messages cfg) = Ok messages ∧
     messages ≠ [] ∧ Forall sendable messages ∧
     calls run = [Save.Add cfg messages]).
Proof.
  unfold Save.main, emits_default, hook_failed, stdout, calls, exit_status.
  destruct (load_env_file fs env) as [env' [e|]]; csimpl; [naive_solver|].
  destruct (json_loads stdin) as [doc|]; csimpl; [|naive_solver].
  destruct (Save.get_config env') as [cfg|e] eqn:Hcfg; csimpl; [|naive_solver].
  destruct (String.eqb_spec (Save.api_key cfg) "") as [Hkey|Hkey]; csimpl;
    [naive_solver|].
  destruct (extract_messages doc (Save.save_messages cfg)) as [messages|e]
    eqn:Hmsgs; csimpl; [|naive_solver].
  destruct messages as [|m messages]; csimpl; [naive_solver|].
  unfold Save.save_memories.
  destruct (Save.importable client); csimpl; [|naive_solver].
  split; [naive_solver|]. right. exists cfg, doc, (m :: messages).
  repeat split; try done.
  by apply (extract_messages_inv doc (Save.save_messages cfg)).
Qed.
End save_hook_runs.


(** ** The retrieval hook as a whole *)

Section retrieve_hook_runs.
Context `{Runtime}.

Lemma format_memories_shape (results : json) (message : string) :
  Retrieve.format_memories results = Ok message →
  message = "" ∨ ∃ rest, message = memories_header +:+ rest.
Proof.
  unfold Retrieve.format_memories.
  destruct (py_iter results) as [items|]; [|done]. csimpl.
  destruct (Retrieve.format_loop items []) as [[|line lines]|]; csimpl;
    [| |done]; intros [= <-]; eauto.
Qed.

(** [search_memories] always returns, and logs its one call exactly when
    the package can be imported. *)
Lemma search_memories_run (client : Retrieve.mem0) (query : json)
    (cfg : Retrieve.config) :
  Retrieve.search_memories client query cfg =
    ((if Retrieve.importable client
      then [Call (Retrieve.Search cfg query)] else []),
     inl (search_results client query cfg)).
Proof.
  unfold search_results, Retrieve.search_memories.
  destruct (Retrieve.importable client); csimpl; [|done].
  by destruct (Retrieve.search_response client cfg query) as [[| | | | |]|].
Qed.

Lemma save_prompt_async_run (client : Retrieve.mem0) (prompt : json)
    (cfg : Retrieve.config) :
  Retrieve.save_prompt_async client prompt cfg =
    ((if Retrieve.importable client
      then [Call (Retrieve.Add cfg prompt)] else []), inl ()).
Proof. unfold Retrieve.save_prompt_async. by destruct (Retrieve.importable client). Qed.

(** The run of the retrieval hook, test by test. *)
Lemma retrieve_main_run (fs : filesystem) (client : Retrieve.mem0)
    (env : environ) (stdin : string) :
  Retrieve.main fs client env stdin =
    match load_env_file fs env with
    | (_, Some e) => ([], inr (Uncaught e))
    | (env', None) =>
        match json_loads stdin with
        | None => ([Print default_result], inr (Exited 0))
        | Some (JObj d) =>
            let prompt :=
              py_or (dict_get d "prompt" (JStr "")) (dict_get d "query" (JStr "")) in
            if truthy prompt
            then
              match Retrieve.get_config env' with
              | Raise e => ([], inr (Uncaught e))
              | Ok cfg =>
                  if String.eqb (Retrieve.api_key cfg) ""
                  then ([Print default_result], inr (Exited 0))
                  else
                    let log := retrieval_calls client prompt cfg in
                    let results := search_results client prompt cfg in
                    if truthy results
                    then
                      match Retrieve.format_memories results with
                      | Raise e => (log, inr (Uncaught e))
                      | Ok message =>
                          if String.eqb message ""
                          then (log ++ [Print default_result], inl ())
                          else (log ++ [Print (HookResult "continue" (Some message))],
                                inr (Exited 0))
                      end
                    else (log ++ [Print default_result], inl ())
              end
            else ([Print default_result], inr (Exited 0))
        | Some _ => ([], inr (Uncaught AttributeError))
        end
    end.
Proof.
  unfold Retrieve.main.
  destruct (load_env_file fs env) as [env' [e|]]; [done|].
  destruct (json_loads stdin) as [[| | | | |d]|]; try done. csimpl.
  unfold py_or.
  destruct (truthy (dict_get d "prompt" _)) eqn:Hp; csimpl;
    [rewrite Hp | destruct (truthy (dict_get d "query" _)) eqn:Hq; [|done]];
    csimpl;
    (destruct (Retrieve.get_config env') as [cfg|]; [|done]; csimpl;
     destruct (String.eqb (Retrieve.api_key cfg) ""); [done|]; csimpl;
     rewrite search_memories_run, save_prompt_async_run;
     unfold retrieval_calls;
     destruct (Retrieve.importable client), (Retrieve.auto_save cfg); csimpl;
     (destruct (truthy (search_results _ _ _)); csimpl; [|done];
      destruct (Retrieve.format_memories _); csimpl; [|done];
      by destruct (String.eqb _ ""))).
Qed.

(** X7.  Whatever its input, environment and files, and whatever the memory
    service answers, the retrieval hook either prints exactly one document
    and exits with 0, or prints nothing and dies of an uncaught exception;
    the document is the default result or a continue result whose context
    starts with the section header, never an empty context. *)
Theorem retrieve_main_outcomes (fs : filesystem) (client : Retrieve.mem0)
    (env : environ) (stdin : string) :
  let run := Retrieve.main fs client env stdin in
  (∃ doc, stdout run = [doc] ∧ exit_status run = 0 ∧
          (doc = default_result ∨
           ∃ rest, doc = HookResult "continue" (Some (memories_header +:+ rest)))) ∨
  hook_failed run.
Proof.
  intros run. subst run. rewrite retrieve_main_run.
  unfold hook_failed, stdout, exit_status, retrieval_calls.
  destruct (load_env_file fs env) as [env' [e|]]; [naive_solver|].
  destruct (json_loads stdin) as [[| | | | |d]|]; try naive_solver. csimpl.
  destruct (truthy (py_or _ _)); [|naive_solver].
  destruct (Retrieve.get_config env') as [cfg|]; [|naive_solver].
  destruct (String.eqb (Retrieve.api_key cfg) ""); [naive_solver|].
  destruct (truthy (search_results _ _ _));
    [|destruct (Retrieve.importable client), (Retrieve.auto_save cfg); naive_solver].
  destruct (Retrieve.format_memories _) as [message|] eqn:Hf;
    [|destruct (Retrieve.importable client), (Retrieve.auto_save cfg); naive_solver].
  apply format_memories_shape in Hf as [->|[rest ->]];
    destruct (Retrieve.importable client), (Retrieve.auto_save cfg);
    csimpl; naive_solver.
Qed.

(** X8.  The retrieval hook makes no call at all, or one search followed,
    when auto-save is on, by one add; both are made with a non-empty API
    key and with the same truthy prompt, which is the [prompt] field or,
    when that one is falsy, the [query] field. *)
Theorem retrieve_main_calls (fs : filesystem) (client : Retrieve.mem0)
    (env : environ) (stdin : string) :
  let run := Retrieve.main fs client env stdin in
  calls run = [] ∨
  ∃ cfg d,
    let prompt :=
      py_or (dict_get d "prompt" (JStr "")) (dict_get d "query" (JStr "")) in
    json_loads stdin = Some (JObj d) ∧
    truthy prompt = true ∧
    Retrieve.get_config (load_env_file fs env).1 = Ok cfg ∧
    Retrieve.api_key cfg ≠ "" ∧
    calls run = Retrieve.Search cfg prompt
                  :: (if Retrieve.auto_save cfg
                      then [Retrieve.Add cfg prompt] else []).
Proof.
  intros run. subst run. rewrite retrieve_main_run.
  unfold calls, retrieval_calls.
  destruct (load_env_file fs env) as [env' [e|]]; [by left|].
  destruct (json_loads stdin) as [[| | | | |d]|]; try by left. csimpl.
  destruct (truthy (py_or _ _)) eqn:Hp; [|by left].
  destruct (Retrieve.get_config env') as [cfg|] eqn:Hcfg; [|by left].
  destruct (String.eqb_spec (Retrieve.api_key cfg) "") as [|Hkey]; [by left|].
  destruct (Retrieve.importable client); cycle 1.
  { left. destruct (truthy (search_results _ _ _)); [|done].
    destruct (Retrieve.format_memories _); [|done].
    by destruct (String.eqb _ ""). }
  right. exists cfg, d. repeat split; try done.
  destruct (Retrieve.auto_save cfg);
    (destruct (truthy (search_results _ _ _)); [|done];
     destruct (Retrieve.format_memories _); [|done];
     by destruct (String.eqb _ "")).
Qed.

(** The run of a retrieval that gets past the prompt and key tests. *)
Lemma retrieve_main_work (fs : filesystem) (client : Retrieve.mem0)
    (env : environ) (stdin : string) (d : list (string * json))
    (cfg : Retrieve.config) :
  let prompt :=
    py_or (dict_get d "prompt" (JStr "")) (dict_get d "query" (JStr "")) in
  (load_env_file fs env).2 = None →
  json_loads stdin = Some (JObj d) →
  truthy prompt = true →
  Retrieve.get_config (load_env_file fs env).1 = Ok cfg →
  Retrieve.api_key cfg ≠ "" →
  Retrieve.main fs client env stdin =
    let log := retrieval_calls client prompt cfg in
    let results := search_results client prompt cfg in
    if truthy results
    then
      match Retrieve.format_memories results with
      | Raise e => (log, inr (Uncaught e))
      | Ok message =>
          if String.eqb message ""
          then (log ++ [Print default_result], inl ())
          else (log ++ [Print (HookResult "continue" (Some message))],
                inr (Exited 0))
      end
    else (log ++ [Print default_result], inl ()).
Proof.
  intros prompt Hload Hdoc Hprompt Hcfg Hkey. rewrite retrieve_main_run.
  destruct (load_env_file fs env) as [env' raised]. simpl in *. subst raised.
  rewrite Hdoc. csimpl. fold prompt. rewrite Hprompt, Hcfg.
  by destruct (String.eqb_spec (Retrieve.api_key cfg) "").
Qed.

Lemma search_results_failure (client : Retrieve.mem0) (prompt : json)
    (cfg : Retrieve.config) :
  (Retrieve.importable client = false ∨
   Retrieve.search_response client cfg prompt = None ∨
   ∃ response, Retrieve.search_response client cfg prompt = Some response ∧
               unexpected_shape response = true) →
  search_results client prompt cfg = JArr [].
Proof.
  unfold search_results, Retrieve.search_memories.
  destruct (Retrieve.importable client); csimpl; [|done].
  intros [?|[->|(response & -> & Hshape)]]; [done|done|].
  by destruct response.
Qed.

Lemma search_results_list (client : Retrieve.mem0) (prompt : json)
    (cfg : Retrieve.config) (results : list json) :
  Retrieve.importable client = true →
  (Retrieve.search_response client cfg prompt = Some (JArr results) ∨
   ∃ d', Retrieve.search_response client cfg prompt = Some (JObj d') ∧
         dict_get d' "results" (JArr []) = JArr results) →
  search_results client prompt cfg = JArr results.
Proof.
  unfold search_results, Retrieve.search_memories. intros ->. csimpl.
  by intros [->|(d' & -> & ->)].
Qed.

Lemma stdout_after_calls (client : Retrieve.mem0) (prompt : json)
    (cfg : Retrieve.config) (doc : hook_result) (r : () + stop) :
  stdout (retrieval_calls client prompt cfg ++ [Print doc], r) = [doc].
Proof.
  unfold stdout, retrieval_calls.
  by destruct (Retrieve.importable client), (Retrieve.auto_save cfg).
Qed.

(** X9.  When the memory service fails the retrieval hook (the package
    cannot be imported, the search raises, or the response is neither a
    dict nor a list), a retrieval that has a prompt and a key still prints
    the default result and exits with 0. *)
Theorem retrieve_main_service_failure (fs : filesystem) (client : Retrieve.mem0)
    (env : environ) (stdin : string) (d : list (string * json))
    (cfg : Retrieve.config) :
  let prompt :=
    py_or (dict_get d "prompt" (JStr "")) (dict_get d "query" (JStr "")) in
  (load_env_file fs env).2 = None →
  json_loads stdin = Some (JObj d) →
  truthy prompt = true →
  Retrieve.get_config (load_env_file fs env).1 = Ok cfg →
  Retrieve.api_key cfg ≠ "" →
  (Retrieve.importable client = false ∨
   Retrieve.search_response client cfg prompt = None ∨
   ∃ response, Retrieve.search_response client cfg prompt = Some response ∧
               unexpected_shape response = true) →
  emits_default (Retrieve.main fs client env stdin).
Proof.
  intros prompt Hload Hdoc Hprompt Hcfg Hkey Hfail.
  rewrite (retrieve_main_work fs client env stdin d cfg) by done. csimpl.
  fold prompt. rewrite (search_results_failure client prompt cfg Hfail).
  change (truthy (JArr [])) with false. cbv iota.
  unfold emits_default. by rewrite stdout_after_calls.
Qed.

(** X10.  When the search answers with a list of records, directly or under
    the [results] key of a dict, a retrieval that has a prompt and a key
    prints one document and exits with 0: a continue result whose context
    is the formatted records or, when no record has a memory, the default
    result. *)
Theorem retrieve_main_injects_memories (fs : filesystem) (client : Retrieve.mem0)
    (env : environ) (stdin : string) (d : list (string * json))
    (cfg : Retrieve.config) (results : list json)
    (records : list (string * list string)) :
  let prompt :=
    py_or (dict_get d "prompt" (JStr "")) (dict_get d "query" (JStr "")) in
  (load_env_file fs env).2 = None →
  json_loads stdin = Some (JObj d) →
  truthy prompt = true →
  Retrieve.get_config (load_env_file fs env).1 = Ok cfg →
  Retrieve.api_key cfg ≠ "" →
  Retrieve.importable client = true →
  (Retrieve.search_response client cfg prompt = Some (JArr results) ∨
   ∃ d', Retrieve.search_response client cfg prompt = Some (JObj d') ∧
         dict_get d' "results" (JArr []) = JArr results) →
  Forall2 (λ r rec, as_record r = Some rec) results records →
  let run := Retrieve.main fs client env stdin in
  exit_status run = 0 ∧
  stdout run =
    [if String.eqb (spec_format_memories records) ""
     then default_result
     else HookResult "continue" (Some (spec_format_memories records))].
Proof.
  intros prompt Hload Hdoc Hprompt Hcfg Hkey Himport Hresp Hrec run. subst run.
  rewrite (retrieve_main_work fs client env stdin d cfg) by done. csimpl.
  fold prompt. rewrite (search_results_list client prompt cfg results) by done.
  rewrite (format_memories_refines results records Hrec).
  destruct results as [|r results].
  { apply Forall2_nil_inv_l in Hrec as ->.
    change (truthy (JArr [])) with false. cbv iota.
    by rewrite stdout_after_calls. }
  change (truthy (JArr (r :: results))) with true. cbv iota.
  destruct (String.eqb (spec_format_memories records) "");
    by rewrite stdout_after_calls.
Qed.

Lemma format_loop_app (l1 l2 : list json) (memories : list string) :
  Retrieve.format_loop (l1 ++ l2) memories =
    Retrieve.format_loop l1 memories ≫= Retrieve.format_loop l2.
Proof.
  revert memories. induction l1 as [|r l1 IH]; intros memories; csimpl; [done|].
  destruct (Retrieve.format_record memories r); csimpl; [apply IH | done].
Qed.

Lemma format_memories_garbled (before after : list json) (r : json)
    (records : list (string * list string)) :
  Forall2 (λ r rec, as_record r = Some rec) before records →
  is_object r = false →
  Retrieve.format_memories (JArr (before ++ r :: after)) = Raise AttributeError.
Proof.
  intros Hrec Hr. unfold Retrieve.format_memories. csimpl.
  rewrite format_loop_app, (format_loop_spec before records [] Hrec). csimpl.
  by destruct r.
Qed.

(** X11.  When the list the search answers with holds an entry that is not
    a dict, after entries that are records, the formatter raises
    [AttributeError]: the hook has made its calls by then, and it prints
    nothing and dies of the uncaught exception. *)
Theorem retrieve_main_garbled_records (fs : filesystem) (client : Retrieve.mem0)
    (env : environ) (stdin : string) (d : list (string * json))
    (cfg : Retrieve.config) (before after : list json) (r : json)
    (records : list (string * list string)) :
  let prompt :=
    py_or (dict_get d "prompt" (JStr "")) (dict_get d "query" (JStr "")) in
  (load_env_file fs env).2 = None →
  json_loads stdin = Some (JObj d) →
  truthy prompt = true →
  Retrieve.get_config (load_env_file fs env).1 = Ok cfg →
  Retrieve.api_key cfg ≠ "" →
  Retrieve.importable client = true →
  (Retrieve.search_response client cfg prompt = Some (JArr (before ++ r :: after)) ∨
   ∃ d', Retrieve.search_response client cfg prompt = Some (JObj d') ∧
         dict_get d' "results" (JArr []) = JArr (before ++ r :: after)) →
  Forall2 (λ r rec, as_record r = Some rec) before records →
  is_object r = false →
  let run := Retrieve.main fs client env stdin in
  stdout run = [] ∧ run.2 = inr (Uncaught AttributeError) ∧
  calls run = Retrieve.Search cfg prompt
                :: (if Retrieve.auto_save cfg then [Retrieve.Add cfg prompt] else []).
Proof.
  intros prompt Hload Hdoc Hprompt Hcfg Hkey Himport Hresp Hrec Hr run. subst run.
  rewrite (retrieve_main_work fs client env stdin d cfg) by done. csimpl.
  fold prompt. rewrite (search_results_list client prompt cfg _ Himport Hresp).
  rewrite (format_memories_garbled before after r records Hrec Hr).
  assert (truthy (JArr (before ++ r :: after)) = true) as -> by by destruct before.
  unfold stdout, calls, retrieval_calls. rewrite Himport.
  by destruct (Retrieve.auto_save cfg).
Qed.
End retrieve_hook_runs.

Lemma retrieve_main_service_failure_witness :
  emits_default (Retrieve.main (H := sample_runtime) no_env_files unreachable_retrieve
                   env_with_key prompt_hello_text).
Proof.
  apply (retrieve_main_service_failure (H := sample_runtime) no_env_files
           unreachable_retrieve env_with_key prompt_hello_text
           [("prompt", JStr "hello")] sample_config);
    [reflexivity | reflexivity | reflexivity | reflexivity | discriminate |].
  right. left. reflexivity.
Defined.

Lemma retrieve_main_injects_memories_witness :
  exit_status (Retrieve.main (H := sample_runtime) no_env_files answering_retrieve
                 env_with_key prompt_hello_text) = 0 ∧
  stdout (Retrieve.main (H := sample_runtime) no_env_files answering_retrieve
            env_with_key prompt_hello_text)
    = [HookResult "continue"
         (Some (memories_header +:+ "- [preferences] likes dark mode"))].
Proof.
  refine (retrieve_main_injects_memories (H := sample_runtime) no_env_files
            answering_retrieve env_with_key prompt_hello_text
            [("prompt", JStr "hello")] sample_config
            [JObj [("memory", JStr "likes dark mode");
                   ("categories", JArr [JStr "preferences"])];
             JObj [("memory", JStr ""); ("categories", JArr [])]]
            example_records_read _ _ _ _ _ _ _ _);
    [reflexivity | reflexivity | reflexivity | reflexivity | discriminate
    | reflexivity | | repeat constructor].
  right. eexists. split; reflexivity.
Defined.

Lemma retrieve_main_garbled_records_witness :
  stdout (Retrieve.main (H := sample_runtime) no_env_files garbled_retrieve
            env_with_key prompt_hello_text) = [] ∧
  (Retrieve.main (H := sample_runtime) no_env_files garbled_retrieve
     env_with_key prompt_hello_text).2 = inr (Uncaught AttributeError) ∧
  calls (Retrieve.main (H := sample_runtime) no_env_files garbled_retrieve
           env_with_key prompt_hello_text)
    = [Retrieve.Search sample_config (JStr "hello");
       Retrieve.Add sample_config (JStr "hello")].
Proof.
  refine (retrieve_main_garbled_records (H := sample_runtime) no_env_files
            garbled_retrieve env_with_key prompt_hello_text
            [("prompt", JStr "hello")] sample_config [] [] (JStr "oops") []
            _ _ _ _ _ _ _ _ _);
    [reflexivity | reflexivity | reflexivity | reflexivity | discriminate
    | reflexivity | by left | constructor | reflexivity].
Defined.

(** ** Both hooks *)

Section both_hooks.
Context `{Runtime}.

(** X12.  With a key, a payload that normalises to a list of messages makes
    the save hook hand exactly that list to [add], once (no call when the
    list is empty or the package cannot be imported), and then print the
    default result and exit with 0, whether the [add] returns or raises. *)
Theorem save_main_saves (fs : filesystem) (client : Save.mem0)
    (env : environ) (stdin : string) (doc : json) (cfg : Save.config)
    (messages : list message) :
  (load_env_file fs env).2 = None →
  json_loads stdin = Some doc →
  Save.get_config (load_env_file fs env).1 = Ok cfg →
  Save.api_key cfg ≠ "" →
  extract_messages doc (Save.save_messages cfg) = Ok messages →
  let run := Save.main fs client env stdin in
  emits_default run ∧
  calls run = match messages with
              | [] => []
              | _ => if Save.importable client then [Save.Add cfg messages] else []
              end.
Proof.
  intros Hload Hdoc Hcfg Hkey Hmsgs run. subst run.
  unfold Save.main, emits_default, stdout, calls, exit_status.
  destruct (load_env_file fs env) as [env' raised]. simpl in *. subst raised.
  rewrite Hdoc, Hcfg. csimpl.
  destruct (String.eqb_spec (Save.api_key cfg) ""); [done|]. csimpl.
  rewrite Hmsgs. csimpl.
  destruct messages as [|m messages]; csimpl; [done|].
  unfold Save.save_memories. by destruct (Save.importable client).
Qed.


End both_hooks.

Lemma save_main_saves_witness :
  emits_default (Save.main (H := transcript_runtime) no_env_files unreachable_save
                   env_with_key transcript_text) ∧
  calls (Save.main (H := transcript_runtime) no_env_files unreachable_save
           env_with_key transcript_text)
    = [Save.Add (Save.Config "secret" "cursor-user" 10)
         [Message (JStr "user") "test message"]].
Proof.
  apply (save_main_saves (H := transcript_runtime) no_env_files unreachable_save
           env_with_key transcript_text transcript_doc
           (Save.Config "secret" "cursor-user" 10)
           [Message (JStr "user") "test message"]);
    [reflexivity | reflexivity | reflexivity | discriminate | reflexivity].
Defined.



(** ** Lines of a [.env] file *)

Lemma lstrip_head_ok (s : string) : head_ok (lstrip s) = true.
Proof.
  induction s as [|c s IH]; [done|]. simpl.
  destruct (is_space c) eqn:Hc; [done|]. simpl. by rewrite Hc.
Qed.

Lemma head_ok_lstrip (s : string) : head_ok s = true → lstrip s = s.
Proof. destruct s as [|c s]; [done|]. simpl. by destruct (is_space c). Qed.

Lemma rstrip_head_ok (s : string) : head_ok s = true → head_ok (rstrip s) = true.
Proof.
  destruct s as [|c s]; [done|]. simpl. intros Hc.
  by destruct (is_space c && _).
Qed.

Lemma rstrip_idemp (s : string) : rstrip (rstrip s) = rstrip s.
Proof.
  induction s as [|c s IH]; [done|]. simpl.
  destruct (is_space c && String.eqb (rstrip s) "") eqn:Hc; [done|].
  simpl. by rewrite IH, Hc.
Qed.

Lemma strip_idemp (s : string) : strip (strip s) = strip s.
Proof.
  unfold strip.
  rewrite (head_ok_lstrip (rstrip (lstrip s)))
    by apply rstrip_head_ok, lstrip_head_ok.
  apply rstrip_idemp.
Qed.

Lemma lstrip_has_eq (s : string) : has_eq s = false → has_eq (lstrip s) = false.
Proof.
  induction s as [|c s IH]; [done|]. simpl.
  destruct (is_space c); [|done].
  intros [_ Hs]%orb_false_elim. by apply IH.
Qed.

Lemma rstrip_has_eq (s : string) : has_eq s = false → has_eq (rstrip s) = false.
Proof.
  induction s as [|c s IH]; [done|]. simpl.
  intros [Hc Hs]%orb_false_elim.
  destruct (is_space c && _); [done|]. simpl. by rewrite Hc, IH.
Qed.

Lemma split_eq_parts (s a b : string) :
  split_eq s = Some (a, b) → s = a +:+ "=" +:+ b ∧ has_eq a = false.
Proof.
  revert a. induction s as [|c s IH]; intros a; [done|]. simpl.
  destruct (Ascii.eqb_spec c "=") as [->|Hc].
  - by intros [= <- <-].
  - destruct (split_eq s) as [[a' b']|]; [|done]. csimpl.
    intros [= <- <-]. destruct (IH a' eq_refl) as [-> Ha]. split; [done|].
    simpl. rewrite Ha. by destruct (Ascii.eqb_spec c "=").
Qed.

Lemma split_eq_app (k v : string) :
  has_eq k = false → split_eq (k +:+ "=" +:+ v) = Some (k, v).
Proof.
  induction k as [|c k IH]; [done|]. simpl.
  intros [Hc Hk]%orb_false_elim. rewrite Hc, IH by done. done.
Qed.

Lemma line_definition_shape (line k v : string) :
  line_definition line = Some (k, v) →
  has_eq k = false ∧ strip k = k ∧ strip v = v ∧
  ∃ a b, strip line = a +:+ "=" +:+ b ∧ has_eq a = false ∧
         k = strip a ∧ v = strip b.
Proof.
  unfold line_definition.
  destruct (_ && _); [|done].
  destruct (split_eq (strip line)) as [[a b]|] eqn:Hsplit; [|done]. csimpl.
  intros [= <- <-].
  destruct (split_eq_parts _ _ _ Hsplit) as [Hline Ha].
  split; [by apply rstrip_has_eq, lstrip_has_eq|].
  split; [apply strip_idemp|]. split; [apply strip_idemp|].
  by exists a, b.
Qed.

(** X15.  One line of a [.env] file changes the environment by at most one
    variable, and only a variable that was not set: its name is not empty,
    has no ["="] in it (the line is split at its first ["="], so the value
    may hold more) and, like its value, has no whitespace at either end;
    the stripped line is the text before that ["="], the ["="] and the text
    after it. *)
Theorem load_line_effect (env env' : environ) (line : string) :
  load_line env line = Ok env' →
  env' = env ∨
  ∃ k v, env !! k = None ∧ env' = <[k := v]> env ∧
         k ≠ "" ∧ has_eq k = false ∧ strip k = k ∧ strip v = v ∧
         ∃ a b, strip line = a +:+ "=" +:+ b ∧ has_eq a = false ∧
                k = strip a ∧ v = strip b.
Proof.
  rewrite load_line_definition.
  destruct (line_definition line) as [[k v]|] eqn:Hdef; [|by intros [= <-]; left].
  unfold setdefault. destruct (env !! k) eqn:Hk; [by intros [= <-]; left|].
  destruct (putenv_ok k v) eqn:Hok; [|done]. intros [= <-]. right.
  destruct (line_definition_shape line k v Hdef) as (Heq & Hsk & Hsv & Hparts).
  exists k, v. repeat split; try done.
  intros ->. done.
Qed.

Lemma load_line_effect_witness :
  ({[ "A" := "b=c" ]} : environ) = ∅ ∨
  ∃ k v, (∅ : environ) !! k = None ∧ ({[ "A" := "b=c" ]} : environ) = <[k := v]> ∅ ∧
         k ≠ "" ∧ has_eq k = false ∧ strip k = k ∧ strip v = v ∧
         ∃ a b, strip " A = b=c " = a +:+ "=" +:+ b ∧ has_eq a = false ∧
                k = strip a ∧ v = strip b.
Proof.
  apply (load_line_effect ∅ {[ "A" := "b=c" ]} " A = b=c "). reflexivity.
Defined.

Lemma str_app_assoc (a b c : string) : (a +:+ b) +:+ c = a +:+ b +:+ c.
Proof.
  induction a as [|x a IH]; [done|].
  change (String x ((a +:+ b) +:+ c) = String x (a +:+ b +:+ c)).
  by rewrite IH.
Qed.

Lemma strip_fixed (s : string) : strip s = s → head_ok s = true ∧ rstrip s = s.
Proof.
  intros Hs.
  assert (Hhead : head_ok s = true).
  { rewrite <-Hs. apply rstrip_head_ok, lstrip_head_ok. }
  split; [done|]. unfold strip in Hs. by rewrite head_ok_lstrip in Hs.
Qed.

Lemma rstrip_app_keeps (a b : string) :
  rstrip b ≠ "" → rstrip (a +:+ b) = a +:+ rstrip b.
Proof.
  intros Hb. induction a as [|c a IH]; [done|]. simpl. rewrite IH.
  assert (String.eqb (a +:+ rstrip b) "" = false) as ->.
  { destruct a; [|done]. simpl. by destruct (rstrip b). }
  by rewrite andb_false_r.
Qed.

Lemma rstrip_app_space (s : string) (c : ascii) :
  is_space c = true → rstrip (s +:+ String c "") = rstrip s.
Proof.
  intros Hc. induction s as [|a s IH]; simpl; [by rewrite Hc | by rewrite IH].
Qed.

Lemma strip_app_space (s : string) (c : ascii) :
  is_space c = true → strip (s +:+ String c "") = strip s.
Proof.
  intros Hc. unfold strip. induction s as [|a s IH]; simpl.
  - by rewrite Hc.
  - destruct (is_space a); [done|].
    exact (rstrip_app_space (String a s) c Hc).
Qed.

Lemma strip_definition (k v : string) :
  strip k = k → strip v = v →
  strip (k +:+ "=" +:+ v) = k +:+ "=" +:+ v.
Proof.
  intros [Hk _]%strip_fixed [_ Hv]%strip_fixed. unfold strip.
  rewrite head_ok_lstrip by by destruct k.
  change (k +:+ "=" +:+ v) with (k +:+ String "=" v).
  assert (Hr : rstrip (String "=" v) = String "=" v).
  { simpl. rewrite Hv. by change (is_space "=") with false. }
  rewrite rstrip_app_keeps; by rewrite Hr.
Qed.

Lemma line_definition_of (k v : string) :
  has_eq k = false → strip k = k → strip v = v → starts_with_hash k = false →
  line_definition (k +:+ "=" +:+ v) = Some (k, v) ∧
  line_definition (k +:+ "=" +:+ v +:+ NL) = Some (k, v).
Proof.
  intros Heq Hk Hv Hhash.
  assert (Hline : line_definition (k +:+ "=" +:+ v) = Some (k, v)).
  { unfold line_definition. rewrite (strip_definition k v Hk Hv).
    assert (String.eqb (k +:+ "=" +:+ v) "" = false) as -> by by destruct k.
    assert (starts_with_hash (k +:+ "=" +:+ v) = false) as -> by by destruct k.
    rewrite split_eq_app by done. csimpl. by rewrite Hk, Hv. }
  split; [done|].
  unfold line_definition in *.
  replace (k +:+ "=" +:+ v +:+ NL) with ((k +:+ "=" +:+ v) +:+ NL)
    by by rewrite !str_app_assoc.
  by rewrite (strip_app_space _ _ (eq_refl : is_space (ascii_of_nat 10) = true)).
Qed.

(** X16.  Writing a variable as the line [NAME=value], with or without the
    newline at its end, and loading that line gives the variable back: for
    a name without ["="] that does not start with ["#"], and a name and a
    value without whitespace at their ends, the line defines exactly that
    pair; loading it sets the variable when it is unset ([os.putenv]
    accepting the pair) and changes nothing when it is set. *)
Theorem load_line_round_trip (env : environ) (k v : string) :
  has_eq k = false → strip k = k → strip v = v → starts_with_hash k = false →
  line_definition (k +:+ "=" +:+ v +:+ NL) = Some (k, v) ∧
  (env !! k = None → putenv_ok k v = true →
     ∃ env', load_line env (k +:+ "=" +:+ v +:+ NL) = Ok env' ∧
             env' !! k = Some v) ∧
  (is_Some (env !! k) → load_line env (k +:+ "=" +:+ v +:+ NL) = Ok env).
Proof.
  intros Heq Hk Hv Hhash.
  destruct (line_definition_of k v Heq Hk Hv Hhash) as [_ Hline].
  split; [done|]. rewrite load_line_definition, Hline. unfold setdefault.
  split.
  - intros -> ->. eexists. split; [done|]. apply lookup_insert_eq.
  - by intros [old ->].
Qed.

Lemma load_line_round_trip_witness :
  line_definition ("MEM0_USER_ID" +:+ "=" +:+ "alice" +:+ NL)
    = Some ("MEM0_USER_ID", "alice") ∧
  (∃ env', load_line ∅ ("MEM0_USER_ID" +:+ "=" +:+ "alice" +:+ NL) = Ok env' ∧
           env' !! "MEM0_USER_ID" = Some "alice").
Proof.
  destruct (load_line_round_trip ∅ "MEM0_USER_ID" "alice")
    as (Hline & Hset & _); [reflexivity ..|].
  split; [exact Hline|]. apply Hset; reflexivity.
Defined.

(** ** Loading, again *)

(** X17.  Loading the same lines a second time changes nothing more and
    ends the same way: every variable they define is set by then, and a
    line that made [os.putenv] raise makes it raise again. *)
Theorem load_lines_idempotent (lines : list string) (env : environ) :
  load_lines lines (load_lines lines env).1 = load_lines lines env.
Proof.
  revert env. induction lines as [|line lines IH]; intros env; [done|].
  simpl. destruct (load_line env line) as [env1|e] eqn:Hline.
  - assert (Hagain : load_line (load_lines lines env1).1 line
                       = Ok (load_lines lines env1).1).
    { rewrite load_line_definition in *.
      destruct (line_definition line) as [[k v]|]; [|done].
      assert (is_Some (env1 !! k)) as [old Hold].
      { unfold setdefault in Hline. destruct (env !! k) eqn:Hk.
        - injection Hline as <-. eauto.
        - destruct (putenv_ok k v); [|done]. injection Hline as <-.
          rewrite lookup_insert_eq. eauto. }
      unfold setdefault.
      by rewrite (load_lines_frame lines env1 k old Hold). }
    rewrite Hagain. apply IH.
  - simpl. by rewrite Hline.
Qed.

Lemma setdefault_provenance (env env' : environ) (k v k0 v0 : string) :
  setdefault env k v = Ok env' → env' !! k0 = Some v0 →
  env !! k0 = Some v0 ∨ (k0 = k ∧ v0 = v).
Proof.
  unfold setdefault. destruct (env !! k) eqn:Hk.
  - intros [= <-]. by left.
  - destruct (putenv_ok k v); [|done]. intros [= <-].
    destruct (decide (k = k0)) as [<-|Hne].
    + rewrite lookup_insert_eq. intros [= <-]. by right.
    + rewrite lookup_insert_ne by done. by left.
Qed.

Lemma load_lines_provenance (lines : list string) (env : environ) (k v : string) :
  (load_lines lines env).1 !! k = Some v →
  env !! k = Some v ∨ ∃ line, line ∈ lines ∧ line_definition line = Some (k, v).
Proof.
  revert env. induction lines as [|line lines IH]; intros env; [by left|].
  simpl. destruct (load_line env line) as [env1|e] eqn:Hline; [|by left].
  intros [H1|(l & Hl & Hdef)]%IH.
  - rewrite load_line_definition in Hline.
    destruct (line_definition line) as [[k' v']|] eqn:Hdef.
    + destruct (setdefault_provenance _ _ _ _ _ _ Hline H1) as [?|[-> ->]];
        [by left|].
      right. exists line. split; [apply list_elem_of_here | done].
    + injection Hline as <-. by left.
  - right. exists l. split; [by apply list_elem_of_further | done].
Qed.

Lemma load_roots_provenance (fs : filesystem) (roots : list json) (env : environ)
    (k v : string) :
  (load_roots fs roots env).1 !! k = Some v →
  env !! k = Some v ∨
  ∃ root line, line ∈ lines_of (root_env fs root) ∧
               line_definition line = Some (k, v).
Proof.
  induction roots as [|root roots IH]; [by left|].
  simpl. destruct root as [| | |root| |]; try by left.
  destruct (root_env fs root) as [|lines readable] eqn:Hroot; [done|].
  rewrite read_env_fst. intros [?|(line & Hline & Hdef)]%load_lines_provenance;
    [by left|].
  right. exists root, line. by rewrite Hroot.
Qed.

(** X18.  Loading the [.env] files invents nothing: a variable that is set
    afterwards either had that value before, or is defined with that value
    by a line of the [.env] in the current directory or of the [.env] under
    some directory. *)
Theorem load_env_file_provenance `{Runtime} (fs : filesystem) (env : environ)
    (k v : string) :
  (load_env_file fs env).1 !! k = Some v →
  env !! k = Some v ∨
  ∃ line, line_definition line = Some (k, v) ∧
          (line ∈ lines_of (cwd_env fs) ∨
           ∃ root, line ∈ lines_of (root_env fs root)).
Proof.
  unfold load_env_file.
  assert (Hws : ∀ k v, load_workspace_env fs env !! k = Some v →
            env !! k = Some v ∨
            ∃ line, line_definition line = Some (k, v) ∧
                    (line ∈ lines_of (cwd_env fs) ∨
                     ∃ root, line ∈ lines_of (root_env fs root))).
  { intros k0 v0. unfold load_workspace_env.
    destruct (json_loads _) as [doc|]; [|by left].
    destruct (py_get doc _ _ ≫= py_iter) as [roots|]; [|by left].
    intros [?|(root & line & Hline & Hdef)]%load_roots_provenance; [by left|].
    right. exists line. split; [done|]. right. by exists root. }
  destruct (cwd_env fs) as [|lines readable] eqn:Hcwd; [apply Hws|].
  rewrite read_env_fst.
  intros [H1|(line & Hline & Hdef)]%load_lines_provenance; [by apply Hws|].
  right. exists line. split; [done|]. by left.
Qed.

Lemma load_env_file_provenance_witness :
  env_with_roots !! "MEM0_USER_ID" = Some "alice" ∨
  ∃ line, line_definition line = Some ("MEM0_USER_ID", "alice") ∧
          (line ∈ lines_of (cwd_env two_env_files) ∨
           ∃ root, line ∈ lines_of (root_env two_env_files root)).
Proof.
  apply (load_env_file_provenance (H := sample_runtime) two_env_files env_with_roots).
  reflexivity.
Defined.

Section resolution.
Context `{Runtime}.

Lemma load_env_file_lookup (fs : filesystem) (env : environ) (doc : json)
    (roots : list string) (k dflt : string) :
  json_loads (environ_get env "CURSOR_HOOK_INPUT" "{}") = Some doc →
  py_get doc "workspace_roots" (JArr []) = Ok (JArr (JStr <$> roots)) →
  clean_file (first_match fs roots) = true →
  clean_file (cwd_env fs) = true →
  environ_get (load_env_file fs env).1 k dflt
    = resolved env (lines_in_read_order fs roots) k dflt.
Proof.
  intros Hdoc Hroots Hfirst Hcwd.
  unfold environ_get, resolved, load_env_file, load_workspace_env,
    lines_in_read_order.
  rewrite Hdoc, Hroots. csimpl. rewrite load_roots_first_match. f_equal.
  assert (Hws : ∀ k,
    (match first_match fs roots with
     | Present lines readable => read_env lines readable env
     | Absent => (env, None)
     end).1 !! k =
    match env !! k with
    | Some v => Some v
    | None => first_definition k (lines_of (first_match fs roots))
    end).
  { intros k0. destruct (first_match fs roots) as [|lines readable].
    - simpl. by destruct (env !! k0).
    - by apply read_env_clean. }
  destruct (cwd_env fs) as [|clines creadable].
  - simpl. by rewrite app_nil_r, Hws.
  - rewrite (proj2 (read_env_clean clines creadable _ Hcwd)), Hws,
      first_definition_app. simpl.
    destruct (env !! k); [done|].
    by destruct (first_definition k (lines_of (first_match fs roots))).
Qed.

(** X19.  What the hooks resolve after loading: each option of the
    configuration is read from the variable of the environment when it is
    set, else from the earliest definition in the [.env] lines read (first
    matching workspace root, then current directory), else from its
    default; so an API key written in a [.env] file is used exactly when
    the environment has none. *)
Theorem get_config_after_load (fs : filesystem) (env : environ) (doc : json)
    (roots : list string) :
  json_loads (environ_get env "CURSOR_HOOK_INPUT" "{}") = Some doc →
  py_get doc "workspace_roots" (JArr []) = Ok (JArr (JStr <$> roots)) →
  clean_file (first_match fs roots) = true →
  clean_file (cwd_env fs) = true →
  let value := resolved env (lines_in_read_order fs roots) in
  (∀ cfg, Retrieve.get_config (load_env_file fs env).1 = Ok cfg →
     Retrieve.api_key cfg = value "MEM0_API_KEY" "" ∧
     Retrieve.user_id cfg = value "MEM0_USER_ID" "cursor-user" ∧
     py_int (value "MEM0_TOP_K" "5") = Some (Retrieve.top_k cfg) ∧
     py_float (value "MEM0_THRESHOLD" "0.3") = Some (Retrieve.threshold cfg) ∧
     Retrieve.auto_save cfg
       = String.eqb (lower (value "MEM0_AUTO_SAVE" "true")) "true") ∧
  (∀ cfg, Save.get_config (load_env_file fs env).1 = Ok cfg →
     Save.api_key cfg = value "MEM0_API_KEY" "" ∧
     Save.user_id cfg = value "MEM0_USER_ID" "cursor-user" ∧
     py_int (value "MEM0_SAVE_MESSAGES" "10") = Some (Save.save_messages cfg)).
Proof.
  intros Hdoc Hroots Hfirst Hcwd value.
  pose proof (λ k dflt, load_env_file_lookup fs env doc roots k dflt
                          Hdoc Hroots Hfirst Hcwd) as Hget.
  fold value in Hget. split; intros cfg.
  - unfold Retrieve.get_config, int_of_str, float_of_str. rewrite !Hget.
    destruct (py_int _) as [n|]; [|done]. csimpl.
    destruct (py_float _) as [x|]; [|done]. csimpl.
    by intros [= <-].
  - unfold Save.get_config, int_of_str. rewrite !Hget.
    destruct (py_int _) as [n|]; [|done]. csimpl.
    by intros [= <-].
Qed.
End resolution.

Lemma get_config_after_load_witness :
  Retrieve.get_config (H := sample_runtime)
    (load_env_file (H := sample_runtime) two_env_files env_with_roots).1
  = Ok (Retrieve.Config (H := sample_runtime) "secret" "alice" 3 (3 # 10) true) ∧
  Retrieve.user_id (Retrieve.Config (H := sample_runtime) "secret" "alice" 3 (3 # 10) true)
  = resolved env_with_roots (lines_in_read_order two_env_files ["/a"; "/b"])
      "MEM0_USER_ID" "cursor-user".
Proof.
  split; [reflexivity|].
  refine (proj1 (proj2 (proj1 (get_config_after_load (H := sample_runtime)
            two_env_files env_with_roots
            (JObj [("workspace_roots", JArr [JStr "/a"; JStr "/b"])])
            ["/a"; "/b"] _ _ _ _) _ _)));
    reflexivity.
Defined.

(** X20.  Each hook's configuration depends on nothing but the variables it
    names: two environments that agree on [MEM0_API_KEY], [MEM0_USER_ID],
    [MEM0_TOP_K], [MEM0_THRESHOLD] and [MEM0_AUTO_SAVE] resolve to the same
    retrieval configuration (or fail alike), and two that agree on
    [MEM0_API_KEY], [MEM0_USER_ID] and [MEM0_SAVE_MESSAGES] to the same
    save configuration; so the save-message limit cannot break the
    retrieval hook, nor the result count the save hook. *)
Theorem get_config_reads_only_its_options `{Runtime} (env env' : environ) :
  ((∀ k, k ∈ ["MEM0_API_KEY"; "MEM0_USER_ID"; "MEM0_TOP_K"; "MEM0_THRESHOLD";
              "MEM0_AUTO_SAVE"] → env !! k = env' !! k) →
   Retrieve.get_config env = Retrieve.get_config env') ∧
  ((∀ k, k ∈ ["MEM0_API_KEY"; "MEM0_USER_ID"; "MEM0_SAVE_MESSAGES"] →
         env !! k = env' !! k) →
   Save.get_config env = Save.get_config env').
Proof.
  split; intros Hsame.
  - unfold Retrieve.get_config, environ_get.
    by rewrite !Hsame by set_solver.
  - unfold Save.get_config, environ_get.
    by rewrite !Hsame by set_solver.
Qed.

Lemma get_config_reads_only_its_options_witness :
  Retrieve.get_config (H := sample_runtime) ∅
  = Retrieve.get_config (H := sample_runtime) {[ "MEM0_SAVE_MESSAGES" := "abc" ]}.
Proof.
  apply (proj1 (get_config_reads_only_its_options (H := sample_runtime)
                  ∅ {[ "MEM0_SAVE_MESSAGES" := "abc" ]})).
  intros k Hk.
  repeat (apply elem_of_cons in Hk as [->|Hk]; [reflexivity|]).
  by apply elem_of_nil in Hk.
Defined.
